(** * AHRS ADC: double-buffered acquisition, decimation and hand-off

    A shallow embedding of [flight/AHRS/ahrs_adc.c].  The module's file-scope
    variables become one record, [adc_state]; every C function becomes a
    function on that record.

    - Integers are [Z] with the conversions of the C types written out; the
      32-bit accumulator of the filter is a two's complement register, its
      additions wrap.
    - Floats are IEEE-754 binary32 values of the library's executable
      specification.
    - Arrays are lists; an access outside the declared array, a read through
      the null valid-half pointer and a float-to-integer conversion whose
      result is not representable are undefined behaviour in C, and the
      embedding returns [None] there.
    - The board constants of the headers are parameters.
    - The calls made through the registered callback are recorded in a
      trace. *)

From Stdlib Require Import ZArith Lia Bool List.
From Stdlib Require Import Floats.SpecFloat.
From stdpp Require Import base option numbers list.

Local Open Scope Z_scope.

(** ** Machine integers *)

Module MachineInt.

(** Conversion to an unsigned [w]-bit integer: reduction modulo [2^w]. *)
Definition to_unsigned (w x : Z) : Z := x mod 2 ^ w.

(** Conversion to a signed [w]-bit integer (two's complement wrap-around). *)
Definition to_signed (w x : Z) : Z := (x + 2 ^ (w - 1)) mod 2 ^ w - 2 ^ (w - 1).

Definition uint8 (x : Z) : Z := to_unsigned 8 x.
Definition uint32 (x : Z) : Z := to_unsigned 32 x.
Definition int16 (x : Z) : Z := to_signed 16 x.
Definition int32 (x : Z) : Z := to_signed 32 x.

Definition INT16_MIN : Z := -32768.
Definition INT16_MAX : Z := 32767.
Definition INT32_MIN : Z := -2147483648.
Definition INT32_MAX : Z := 2147483647.
Definition UINT8_MAX : Z := 255.
Definition UINT16_MAX : Z := 65535.

Definition in_int16 (x : Z) : Prop := INT16_MIN <= x <= INT16_MAX.
Definition in_int32 (x : Z) : Prop := INT32_MIN <= x <= INT32_MAX.

End MachineInt.
Export MachineInt.

(** ** Single-precision floats

    The C type [float] is IEEE-754 binary32: 24 bits of precision, infinities
    at exponent 128.  Values and operations are those of the library's
    executable specification of binary floating point. *)

Module Float32.

Definition float : Type := spec_float.

Definition prec : Z := 24.
Definition emax : Z := 128.

(** [(float) z] for an integer [z]: round to nearest, ties to even. *)
Definition of_int (z : Z) : float := binary_normalize prec emax z 0 false.

(** [x / y] on floats. *)
Definition div (x y : float) : float := SFdiv prec emax x y.

(** The integral part of a float, fraction discarded (towards zero);
    [None] for infinities and NaN. *)
Definition trunc (f : float) : option Z :=
  match f with
  | S754_zero _ => Some 0
  | S754_finite s m e =>
      Some (cond_Zopp s (match e with
                         | Zneg p => Z.pos m / 2 ^ Z.pos p
                         | _ => Z.pos m * 2 ^ e
                         end))
  | S754_infinity _ | S754_nan => None
  end.

(** [(int16_t) f]: defined when the integral part fits the type. *)
Definition to_int16 (f : float) : option Z :=
  z ← trunc f;
  if (INT16_MIN <=? z) && (z <=? INT16_MAX) then Some z else None.

End Float32.

(** ** C arrays *)

Section Arrays.
Context {A : Type}.

(** [a[i]] as an rvalue. *)
Definition array_get (a : list A) (i : Z) : option A :=
  if 0 <=? i then a !! Z.to_nat i else None.

(** [a[i] = v]. *)
Definition array_set (a : list A) (i : Z) (v : A) : option (list A) :=
  if (0 <=? i) && (i <? Z.of_nat (length a))
  then Some (<[Z.to_nat i := v]> a) else None.

(** The array after the stores [a[k] = g k] for [k] in [[i, i + n)]. *)
Definition fill (g : Z -> A) (i : Z) (n : nat) (a : list A) : list A :=
  imap (fun k old =>
          if (i <=? Z.of_nat k) && (Z.of_nat k <? i + Z.of_nat n)
          then g (Z.of_nat k) else old) a.
End Arrays.

(** ** Module state *)

(** Modelled from the spec: [ADCCallback] (declared in [ahrs_adc.h], not
    under src/) is a reference to a function taking the downsampled buffer;
    a callback is identified by its address.  The callee reads the buffer
    it is handed and leaves the variables of this module alone. *)
Definition ADCCallback : Type := positive.

(** A call through [callback_function], with the contents of the buffer the
    callee is handed. *)
Inductive event : Type :=
  | CallbackCall (fn : ADCCallback) (data : list Float32.float).

(** Modelled from the spec: the signals of the transfer engine that the
    handler names (their declarations are not under src/): full-transfer
    complete, half-transfer complete, and the channel's generic flag. *)
Inductive dma_flag : Type := DMA1_IT_TC1 | DMA1_IT_HT1 | DMA1_FLAG_GL1.

Record dma_status : Type := mk_dma_status {
  tc1 : bool;
  ht1 : bool;
  gl1 : bool
}.

Record adc_state : Type := mk_adc_state {
  raw_data_buffer : list Z;                 (* volatile int16_t [MAX_SAMPLES] *)
  valid_data_buffer : option Z;             (* offset into raw_data_buffer; None is NULL *)
  adc_oversample : Z;                       (* volatile uint8_t *)
  fir_coeffs : list Z;                      (* int16_t [MAX_OVERSAMPLING] *)
  downsampled_buffer : list Float32.float;  (* float [PIOS_ADC_NUM_PINS] *)
  callback_function : option ADCCallback;   (* None is NULL *)
  dma_status_reg : dma_status;              (* DMA1 channel 1 flags *)
  DMA_BufferSize : Z;                       (* transfer count programmed by the configurator *)
  trace : list event                        (* calls made through callback_function *)
}.

Definition set_raw_data_buffer (v : list Z) (st : adc_state) : adc_state :=
  mk_adc_state v (valid_data_buffer st) (adc_oversample st) (fir_coeffs st)
    (downsampled_buffer st) (callback_function st) (dma_status_reg st)
    (DMA_BufferSize st) (trace st).

Definition set_valid_data_buffer (v : option Z) (st : adc_state) : adc_state :=
  mk_adc_state (raw_data_buffer st) v (adc_oversample st) (fir_coeffs st)
    (downsampled_buffer st) (callback_function st) (dma_status_reg st)
    (DMA_BufferSize st) (trace st).

Definition set_adc_oversample (v : Z) (st : adc_state) : adc_state :=
  mk_adc_state (raw_data_buffer st) (valid_data_buffer st) v (fir_coeffs st)
    (downsampled_buffer st) (callback_function st) (dma_status_reg st)
    (DMA_BufferSize st) (trace st).

Definition set_fir_coeffs (v : list Z) (st : adc_state) : adc_state :=
  mk_adc_state (raw_data_buffer st) (valid_data_buffer st) (adc_oversample st) v
    (downsampled_buffer st) (callback_function st) (dma_status_reg st)
    (DMA_BufferSize st) (trace st).

Definition set_downsampled_buffer (v : list Float32.float) (st : adc_state) : adc_state :=
  mk_adc_state (raw_data_buffer st) (valid_data_buffer st) (adc_oversample st)
    (fir_coeffs st) v (callback_function st) (dma_status_reg st)
    (DMA_BufferSize st) (trace st).

Definition set_callback_function (v : option ADCCallback) (st : adc_state) : adc_state :=
  mk_adc_state (raw_data_buffer st) (valid_data_buffer st) (adc_oversample st)
    (fir_coeffs st) (downsampled_buffer st) v (dma_status_reg st)
    (DMA_BufferSize st) (trace st).

Definition set_dma_status_reg (v : dma_status) (st : adc_state) : adc_state :=
  mk_adc_state (raw_data_buffer st) (valid_data_buffer st) (adc_oversample st)
    (fir_coeffs st) (downsampled_buffer st) (callback_function st) v
    (DMA_BufferSize st) (trace st).

Definition set_DMA_BufferSize (v : Z) (st : adc_state) : adc_state :=
  mk_adc_state (raw_data_buffer st) (valid_data_buffer st) (adc_oversample st)
    (fir_coeffs st) (downsampled_buffer st) (callback_function st)
    (dma_status_reg st) v (trace st).

Definition set_trace (v : list event) (st : adc_state) : adc_state :=
  mk_adc_state (raw_data_buffer st) (valid_data_buffer st) (adc_oversample st)
    (fir_coeffs st) (downsampled_buffer st) (callback_function st)
    (dma_status_reg st) (DMA_BufferSize st) v.

(** ** The transfer engine's flags *)

(** Modelled from the spec: [DMA_GetFlagStatus] of the peripheral library
    (not under src/) tells whether a signal of the transfer engine is
    pending. *)
Definition DMA_GetFlagStatus (f : dma_flag) (st : adc_state) : bool :=
  match f with
  | DMA1_IT_TC1 => tc1 (dma_status_reg st)
  | DMA1_IT_HT1 => ht1 (dma_status_reg st)
  | DMA1_FLAG_GL1 => gl1 (dma_status_reg st)
  end.

(** Modelled from the spec: [DMA_ClearFlag] of the peripheral library (not
    under src/) clears the named signal and no other. *)
Definition DMA_ClearFlag (f : dma_flag) (st : adc_state) : adc_state :=
  let r := dma_status_reg st in
  set_dma_status_reg
    match f with
    | DMA1_IT_TC1 => mk_dma_status false (ht1 r) (gl1 r)
    | DMA1_IT_HT1 => mk_dma_status (tc1 r) false (gl1 r)
    | DMA1_FLAG_GL1 => mk_dma_status (tc1 r) (ht1 r) false
    end st.

(** ** The module's functions *)

Section AHRS_ADC.

(** Board constants of [ahrs_adc.h] and the board header. *)
Variable PIOS_ADC_NUM_CHANNELS : Z.
Variable PIOS_ADC_NUM_PINS : Z.
Variable MAX_OVERSAMPLING : Z.
Variable MAX_SAMPLES : Z.

(** The statically allocated, zero-initialised variables at start-up. *)
Definition init_state : adc_state :=
  {| raw_data_buffer := replicate (Z.to_nat MAX_SAMPLES) 0;
     valid_data_buffer := None;
     adc_oversample := 0;
     fir_coeffs := replicate (Z.to_nat MAX_OVERSAMPLING) 0;
     downsampled_buffer := replicate (Z.to_nat PIOS_ADC_NUM_PINS) (S754_zero false);
     callback_function := None;
     dma_status_reg := mk_dma_status false false false;
     DMA_BufferSize := 0;
     trace := [] |}.

(** The arrays have their declared sizes and [adc_oversample] holds a
    [uint8_t]. *)
Definition wf_state (st : adc_state) : Prop :=
  Z.of_nat (length (raw_data_buffer st)) = MAX_SAMPLES /\
  Z.of_nat (length (fir_coeffs st)) = MAX_OVERSAMPLING /\
  Z.of_nat (length (downsampled_buffer st)) = PIOS_ADC_NUM_PINS /\
  0 <= adc_oversample st <= UINT8_MAX.

(** [for (int i = 0; i < adc_oversample; i++) adc_config.fir_coeffs[i] = 1;]
    with [n] iterations left and the counter at [i]. *)
Fixpoint config_fir_loop (n : nat) (i : Z) (st : adc_state) : option adc_state :=
  match n with
  | O => Some st
  | S n' =>
      fir ← array_set (fir_coeffs st) i 1;
      config_fir_loop n' (i + 1) (set_fir_coeffs fir st)
  end.

(** [AHRS_ADC_Config]: the stores to the module's variables and the transfer
    count handed to the DMA controller; the remaining peripheral set-up
    (pins, clocks, calibration, interrupt wiring) touches none of the
    variables of this module.  [adc_oversample] is an [int32_t]. *)
Definition AHRS_ADC_Config (oversample : Z) (st : adc_state) : option (Z * adc_state) :=
  let st := set_adc_oversample (uint8 oversample) st in
  let st :=
    set_DMA_BufferSize
      (uint32 (Z.shiftr (int32 (PIOS_ADC_NUM_CHANNELS * oversample * 2)) 1)) st in
  st ← config_fir_loop (Z.to_nat oversample) 0 st;
  fir ← array_set (fir_coeffs st) oversample (int16 oversample);
  Some (1, set_fir_coeffs fir st).

Definition AHRS_ADC_SetCallback (new_function : option ADCCallback)
    (st : adc_state) : adc_state :=
  set_callback_function new_function st.




(** [for (int i = 0; i <= adc_config.adc_oversample; i++)
       adc_config.fir_coeffs[i] = new_filter[i];]
    with [n] iterations left and the counter at [i]. *)
Fixpoint set_fir_loop (new_filter : list Float32.float) (n : nat) (i : Z)
    (st : adc_state) : option adc_state :=
  match n with
  | O => Some st
  | S n' =>
      x ← array_get new_filter i;
      c ← Float32.to_int16 x;
      fir ← array_set (fir_coeffs st) i c;
      set_fir_loop new_filter n' (i + 1) (set_fir_coeffs fir st)
  end.

Definition AHRS_ADC_SetFIRCoefficients (new_filter : list Float32.float)
    (st : adc_state) : option adc_state :=
  set_fir_loop new_filter (Z.to_nat (adc_oversample st + 1)) 0 st.

(** [adc_config.valid_data_buffer[i]]. *)
Definition valid_data_get (st : adc_state) (i : Z) : option Z :=
  base ← valid_data_buffer st;
  array_get (raw_data_buffer st) (base + i).

(** The inner loop of the filter for channel [chan], with [n] iterations
    left, the counter at [sample] and the accumulator at [sum]. *)
Fixpoint sample_loop (st : adc_state) (chan : Z) (n : nat) (sample : Z)
    (sum : Z) : option Z :=
  match n with
  | O => Some sum
  | S n' =>
      x ← valid_data_get st (chan + sample * PIOS_ADC_NUM_CHANNELS);
      c ← array_get (fir_coeffs st) sample;
      sample_loop st chan n' (sample + 1) (int32 (sum + int32 (x * c)))
  end.

(** The outer loop of the filter, with [n] channels left and the counter
    at [chan]. *)
Fixpoint chan_loop (n : nat) (chan : Z) (st : adc_state) : option adc_state :=
  match n with
  | O => Some st
  | S n' =>
      sum ← sample_loop st chan (Z.to_nat (adc_oversample st)) 0 0;
      d ← array_get (fir_coeffs st) (adc_oversample st);
      out ← array_set (downsampled_buffer st) chan
              (Float32.div (Float32.of_int sum) (Float32.of_int d));
      chan_loop n' (chan + 1) (set_downsampled_buffer out st)
  end.

Definition AHRS_ADC_downsample_data (st : adc_state) : option adc_state :=
  st ← chan_loop (Z.to_nat PIOS_ADC_NUM_CHANNELS) 0 st;
  match callback_function st with
  | Some fn =>
      Some (set_trace (trace st ++ [CallbackCall fn (downsampled_buffer st)]) st)
  | None => Some st
  end.

Definition AHRS_ADC_DMA_Handler (st : adc_state) : option adc_state :=
  if DMA_GetFlagStatus DMA1_IT_TC1 st then
    let st :=
      set_valid_data_buffer
        (Some (1 * PIOS_ADC_NUM_CHANNELS * adc_oversample st)) st in
    let st := DMA_ClearFlag DMA1_IT_TC1 st in
    AHRS_ADC_downsample_data st
  else if DMA_GetFlagStatus DMA1_IT_HT1 st then
    let st :=
      set_valid_data_buffer
        (Some (0 * PIOS_ADC_NUM_CHANNELS * adc_oversample st)) st in
    let st := DMA_ClearFlag DMA1_IT_HT1 st in
    AHRS_ADC_downsample_data st
  else
    Some (DMA_ClearFlag DMA1_FLAG_GL1 st).

(** *** The filter in the specification's words *)

(** [raw[i]] in the half-buffer addressed by the valid-half pointer. *)
Definition half_sample (st : adc_state) (i : Z) : Z :=
  default 0 (valid_data_get st i).

(** [coeff[s]]. *)
Definition coeff (st : adc_state) (s : Z) : Z :=
  default 0 (array_get (fir_coeffs st) s).

Definition Zsum (l : list Z) : Z := foldr Z.add 0 l.

(** The sum over [s] in [[0, oversample_factor)] of
    [raw[c + s * num_channels] * coeff[s]], in unbounded integers. *)
Definition weighted_sum (st : adc_state) (c : Z) : Z :=
  Zsum ((fun s => half_sample st (c + s * PIOS_ADC_NUM_CHANNELS) * coeff st s)
          <$> seqZ 0 (adc_oversample st)).

(** [(float) sum / d]. *)
Definition normalise (sum d : Z) : Float32.float :=
  Float32.div (Float32.of_int sum) (Float32.of_int d).

(** [sum / coeff[oversample_factor]] for channel [c]. *)
Definition filtered (st : adc_state) (c : Z) : Float32.float :=
  normalise (weighted_sum st c) (coeff st (adc_oversample st)).

(** The same with the sum as the 32-bit accumulator holds it. *)
Definition accumulated (st : adc_state) (c : Z) : Z := int32 (weighted_sum st c).

Definition decimated (st : adc_state) (c : Z) : Float32.float :=
  normalise (accumulated st c) (coeff st (adc_oversample st)).

(** The downsampled buffer after one pass over all channels. *)
Definition decimate (st : adc_state) : list Float32.float :=
  fill (decimated st) 0 (Z.to_nat PIOS_ADC_NUM_CHANNELS) (downsampled_buffer st).

(** The calls a pass makes through [callback_function]. *)
Definition dispatch (st : adc_state) : list event :=
  match callback_function st with
  | Some fn => [CallbackCall fn (decimate st)]
  | None => []
  end.

(** The state a pass leaves behind. *)
Definition after_pass (st : adc_state) : adc_state :=
  set_trace (trace st ++ dispatch st)
    (set_downsampled_buffer (decimate st) st).

(** *** Geometry *)

(** One half of the double buffer: [num_channels * oversample_factor]
    samples. *)
Definition half_size (st : adc_state) : Z :=
  PIOS_ADC_NUM_CHANNELS * adc_oversample st.

(** The half at offset [base] lies inside [raw_data_buffer]. *)
Definition half_in_buffer (st : adc_state) (base : Z) : Prop :=
  0 <= base /\ base + half_size st <= Z.of_nat (length (raw_data_buffer st)).

(** The tables the filter reads and writes are large enough, and the
    loop bounds fit the counters: [chan] and [sample] are [uint16_t],
    [adc_oversample] is a [uint8_t]. *)
Definition tables_ok (st : adc_state) : Prop :=
  0 <= PIOS_ADC_NUM_CHANNELS <= UINT16_MAX /\
  0 <= adc_oversample st < Z.of_nat (length (fir_coeffs st)) /\
  adc_oversample st <= UINT8_MAX /\
  PIOS_ADC_NUM_CHANNELS <= Z.of_nat (length (downsampled_buffer st)).

(** Both halves lie inside [raw_data_buffer]. *)
Definition geometry_ok (st : adc_state) : Prop :=
  tables_ok st /\
  2 * half_size st <= Z.of_nat (length (raw_data_buffer st)).

(** The samples of the half at offset [base]. *)
Definition half_region (st : adc_state) (base : Z) : list Z :=
  seqZ base (half_size st).

(** *** The transfer engine *)

(** Modelled from the spec: the hardware fills [raw_data_buffer] in the
    background and raises one completion signal per filled half; any other
    interrupt on the channel is a transfer error. *)
Inductive dma_signal : Type := HalfTransfer | FullTransfer | TransferError.

(** An interrupt: the signal raised, and the contents of [raw_data_buffer]
    at that moment. *)
Record dma_event : Type := mk_dma_event {
  signal : dma_signal;
  samples : list Z
}.

Definition raise_signal (s : dma_signal) (st : adc_state) : adc_state :=
  let r := dma_status_reg st in
  set_dma_status_reg
    match s with
    | FullTransfer => mk_dma_status true (ht1 r) (gl1 r)
    | HalfTransfer => mk_dma_status (tc1 r) true (gl1 r)
    | TransferError => mk_dma_status (tc1 r) (ht1 r) true
    end st.

Definition dma_deliver (e : dma_event) (st : adc_state) : adc_state :=
  raise_signal (signal e) (set_raw_data_buffer (samples e) st).

(** The state the filter is started in by the handler: the half at offset
    [base] published, the completion flag [flag] acknowledged. *)
Definition swap_to (flag : dma_flag) (base : Z) (st : adc_state) : adc_state :=
  DMA_ClearFlag flag (set_valid_data_buffer (Some base) st).

(** The handler runs to completion on each interrupt. *)
Definition interrupt (e : dma_event) (st : adc_state) : option adc_state :=
  AHRS_ADC_DMA_Handler (dma_deliver e st).

(** The states after each interrupt of a run. *)
Fixpoint run (es : list dma_event) (st : adc_state) : option (list adc_state) :=
  match es with
  | [] => Some []
  | e :: es' =>
      st' ← interrupt e st;
      sts ← run es' st';
      Some (st' :: sts)
  end.

(** No completion signal is pending. *)
Definition idle (st : adc_state) : Prop :=
  DMA_GetFlagStatus DMA1_IT_TC1 st = false /\
  DMA_GetFlagStatus DMA1_IT_HT1 st = false.

(** What every interrupt leaves alone. *)
Definition configuration_kept (st st' : adc_state) : Prop :=
  adc_oversample st' = adc_oversample st /\
  fir_coeffs st' = fir_coeffs st /\
  callback_function st' = callback_function st /\
  length (downsampled_buffer st') = length (downsampled_buffer st) /\
  length (raw_data_buffer st') = length (raw_data_buffer st).

(** [(int16_t) new_filter[k]], the value [AHRS_ADC_SetFIRCoefficients]
    stores in slot [k]. *)
Definition converted (new_filter : list Float32.float) (k : Z) : Z :=
  default 0 (array_get new_filter k ≫= Float32.to_int16).

(** The integral part of [new_filter[k]]. *)
Definition truncated (new_filter : list Float32.float) (k : Z) : Z :=
  default 0 (array_get new_filter k ≫= Float32.trunc).

(** The state with [raw_data_buffer] cut down to the double buffer, its
    first [2 * num_channels * oversample_factor] entries. *)
Definition double_buffer_only (st : adc_state) : adc_state :=
  set_raw_data_buffer
    (take (Z.to_nat (PIOS_ADC_NUM_CHANNELS * adc_oversample st * 2))
       (raw_data_buffer st)) st.

(** A half- or full-transfer completion. *)
Definition completion (e : dma_event) : Prop :=
  signal e = HalfTransfer \/ signal e = FullTransfer.

(** Completions in which half- and full-transfer take turns. *)
Definition alternating (es : list dma_event) : Prop :=
  Forall completion es /\
  forall i e1 e2, es !! i = Some e1 -> es !! S i = Some e2 -> signal e1 <> signal e2.

(** The transfer engine writes into [raw_data_buffer]; it never resizes it. *)
Definition well_sized (st : adc_state) (es : list dma_event) : Prop :=
  Forall (fun e => length (samples e) = length (raw_data_buffer st)) es.

(** The offset published once the handler has served signal [s]: a
    transfer error leaves the pointer where it was. *)
Definition published_offset (st : adc_state) (s : dma_signal) : Z :=
  match s with
  | HalfTransfer => 0
  | FullTransfer => half_size st
  | TransferError => default 0 (valid_data_buffer st)
  end.

(** The state an interrupt leaves behind when the handler finds no other
    signal pending. *)
Definition handled (e : dma_event) (st : adc_state) : adc_state :=
  match signal e with
  | HalfTransfer => after_pass (swap_to DMA1_IT_HT1 0 (dma_deliver e st))
  | FullTransfer =>
      after_pass (swap_to DMA1_IT_TC1 (half_size st) (dma_deliver e st))
  | TransferError => DMA_ClearFlag DMA1_FLAG_GL1 (dma_deliver e st)
  end.

Fixpoint handled_states (es : list dma_event) (st : adc_state) : list adc_state :=
  match es with
  | [] => []
  | e :: es' => handled e st :: handled_states es' (handled e st)
  end.

End AHRS_ADC.

(** ** Worked examples *)

Definition float_zero : Float32.float := S754_zero false.

(** The decimation example of the specification: two channels, oversample
    factor 3, boxcar coefficients, first half valid. *)
Definition boxcar_example : adc_state :=
  {| raw_data_buffer := [10; 5; 20; 5; 30; 5; 0; 0; 0; 0; 0; 0; 0; 0; 0; 0];
     valid_data_buffer := Some 0;
     adc_oversample := 3;
     fir_coeffs := [1; 1; 1; 3];
     downsampled_buffer := [float_zero; float_zero];
     callback_function := None;
     dma_status_reg := mk_dma_status false false false;
     DMA_BufferSize := 6;
     trace := [] |}.

(** One channel, oversample factor 17, full-scale 12-bit samples and the
    largest 16-bit weights. *)
Definition overflow_example : adc_state :=
  {| raw_data_buffer := replicate 17 4095 ++ replicate 19 0;
     valid_data_buffer := Some 0;
     adc_oversample := 17;
     fir_coeffs := replicate 17 32767 ++ [1];
     downsampled_buffer := [float_zero];
     callback_function := None;
     dma_status_reg := mk_dma_status false false false;
     DMA_BufferSize := 17;
     trace := [] |}.

(** The same state with a callback registered. *)
Definition listening_example : adc_state :=
  AHRS_ADC_SetCallback (Some 1%positive) boxcar_example.

(** First half filled, then the second: two interrupts. *)
Definition two_halves_example : list dma_event :=
  [ mk_dma_event HalfTransfer [10; 5; 20; 5; 30; 5; 0; 0; 0; 0; 0; 0; 0; 0; 0; 0];
    mk_dma_event FullTransfer [10; 5; 20; 5; 30; 5; 40; 7; 50; 7; 60; 7; 0; 0; 0; 0] ].

(** 1.5, 2.75, 1.25 and 4.5 as quotients of small integers. *)
Definition fractional_filter_example : list Float32.float :=
  [ Float32.div (Float32.of_int 3) (Float32.of_int 2);
    Float32.div (Float32.of_int 11) (Float32.of_int 4);
    Float32.div (Float32.of_int 5) (Float32.of_int 4);
    Float32.div (Float32.of_int 9) (Float32.of_int 2) ].

(** Every value of [int16_t], and the test that it survives the conversion
    to [float] and back. *)
Fixpoint Zrange (n : nat) (z : Z) : list Z :=
  match n with
  | O => []
  | S n' => z :: Zrange n' (z + 1)
  end.

Definition int16_values : list Z := Zrange (Z.to_nat 65536) INT16_MIN.

Definition int16_round_trip (z : Z) : bool :=
  match Float32.to_int16 (Float32.of_int z) with
  | Some z' => z' =? z
  | None => false
  end.

(** The boxcar state with a zero divisor. *)
Definition zero_divisor_example : adc_state :=
  set_fir_coeffs [1; 1; 1; 0] boxcar_example.

(** Both completion flags pending, a callback registered. *)
Definition both_pending_example : adc_state :=
  raise_signal FullTransfer (raise_signal HalfTransfer listening_example).

(** A second buffer that agrees with the boxcar state's on the first half. *)
Definition other_second_half_example : list Z :=
  [10; 5; 20; 5; 30; 5; 99; 98; 97; 96; 95; 94; 0; 0; 0; 0].

(** The completions among the interrupts of a run. *)
Definition is_completion (e : dma_event) : bool :=
  match signal e with
  | HalfTransfer | FullTransfer => true
  | TransferError => false
  end.

(** A completion, an error, a completion. *)
Definition noisy_run_example : list dma_event :=
  [ mk_dma_event HalfTransfer [10; 5; 20; 5; 30; 5; 0; 0; 0; 0; 0; 0; 0; 0; 0; 0];
    mk_dma_event TransferError [10; 5; 20; 5; 30; 5; 40; 7; 0; 0; 0; 0; 0; 0; 0; 0];
    mk_dma_event FullTransfer [10; 5; 20; 5; 30; 5; 40; 7; 50; 7; 60; 7; 0; 0; 0; 0] ].

(** Bounds on concrete or hypothesised sizes, by linear arithmetic. *)
Ltac solve_bounds :=
  unfold geometry_ok, tables_ok, half_in_buffer, half_size, wf_state,
    UINT8_MAX, UINT16_MAX, INT16_MAX, INT16_MIN in *;
  simpl in *; lia.

(** ** Machine-integer facts *)

Lemma int32_small (x : Z) : in_int32 x -> int32 x = x.
Proof.
  unfold in_int32, INT32_MIN, INT32_MAX, int32, to_signed. intros H.
  change (2 ^ (32 - 1)) with 2147483648. change (2 ^ 32) with 4294967296.
  rewrite Z.mod_small; lia.
Qed.

Lemma int16_small (x : Z) : in_int16 x -> int16 x = x.
Proof.
  unfold in_int16, INT16_MIN, INT16_MAX, int16, to_signed. intros H.
  change (2 ^ (16 - 1)) with 32768. change (2 ^ 16) with 65536.
  rewrite Z.mod_small; lia.
Qed.

Lemma int32_add_idemp_r (a b : Z) : int32 (a + int32 b) = int32 (a + b).
Proof.
  unfold int32, to_signed. f_equal.
  replace (a + ((b + 2 ^ (32 - 1)) mod 2 ^ 32 - 2 ^ (32 - 1)) + 2 ^ (32 - 1))
    with (a + (b + 2 ^ (32 - 1)) mod 2 ^ 32) by lia.
  rewrite Z.add_mod_idemp_r by (vm_compute; discriminate).
  f_equal. lia.
Qed.

Lemma int32_add_idemp_l (a b : Z) : int32 (int32 a + b) = int32 (a + b).
Proof. rewrite (Z.add_comm (int32 a)), int32_add_idemp_r. f_equal. lia. Qed.

Lemma uint8_small (x : Z) : 0 <= x < 256 -> uint8 x = x.
Proof. intros H. unfold uint8, to_unsigned. apply Z.mod_small. exact H. Qed.

(** ** Array facts *)

Section ArrayFacts.
Context {A : Type}.
Implicit Types (a : list A) (i : Z) (v : A).

Lemma array_get_Some a i v :
  array_get a i = Some v -> 0 <= i < Z.of_nat (length a).
Proof.
  unfold array_get. destruct (Z.leb_spec 0 i) as [Hle|Hlt]; [|discriminate].
  intros Hk%lookup_lt_Some. lia.
Qed.

Lemma array_get_in_range a i :
  0 <= i < Z.of_nat (length a) -> is_Some (array_get a i).
Proof.
  intros H. unfold array_get. destruct (Z.leb_spec 0 i); [|lia].
  apply lookup_lt_is_Some. lia.
Qed.

Lemma array_set_in_range a i v :
  0 <= i < Z.of_nat (length a) ->
  array_set a i v = Some (<[Z.to_nat i := v]> a).
Proof.
  intros H. unfold array_set.
  destruct (Z.leb_spec 0 i); [|lia].
  destruct (Z.ltb_spec i (Z.of_nat (length a))); [reflexivity|lia].
Qed.

Lemma array_set_Some a i v a' :
  array_set a i v = Some a' ->
  0 <= i < Z.of_nat (length a) /\ a' = <[Z.to_nat i := v]> a.
Proof.
  unfold array_set.
  destruct (Z.leb_spec 0 i); [|discriminate].
  destruct (Z.ltb_spec i (Z.of_nat (length a))); [|discriminate].
  simpl. intros [= <-]. split; [lia|reflexivity].
Qed.

Lemma array_set_out_of_range a i v :
  ~ 0 <= i < Z.of_nat (length a) -> array_set a i v = None.
Proof.
  intros H. destruct (array_set a i v) eqn:E; [|reflexivity].
  apply array_set_Some in E. tauto.
Qed.

Lemma length_fill g i n a : length (fill g i n a) = length a.
Proof. apply length_imap. Qed.

Lemma fill_lookup g i n a (k : nat) :
  fill g i n a !! k =
  (fun old => if (i <=? Z.of_nat k) && (Z.of_nat k <? i + Z.of_nat n)
              then g (Z.of_nat k) else old) <$> a !! k.
Proof. unfold fill. apply list_lookup_imap. Qed.

Lemma fill_nil g i a : fill g i 0 a = a.
Proof.
  apply list_eq. intros k. rewrite fill_lookup.
  destruct (a !! k) as [x|]; [|reflexivity]. simpl.
  destruct (Z.leb_spec i (Z.of_nat k)), (Z.ltb_spec (Z.of_nat k) (i + Z.of_nat 0));
    simpl; try reflexivity; lia.
Qed.

Lemma fill_step g i n a :
  0 <= i ->
  fill g (i + 1) n (<[Z.to_nat i := g i]> a) = fill g i (S n) a.
Proof.
  intros Hi. apply list_eq. intros k. rewrite !fill_lookup.
  destruct (decide (k = Z.to_nat i)) as [->|Hne].
  - rewrite Z2Nat.id by lia.
    destruct (a !! Z.to_nat i) as [x|] eqn:E.
    + rewrite list_lookup_insert_eq by (apply lookup_lt_Some in E; exact E).
      simpl.
      destruct (Z.leb_spec (i + 1) i), (Z.leb_spec i i),
        (Z.ltb_spec i (i + Z.of_nat (S n))); simpl; try reflexivity; lia.
    + rewrite list_insert_ge by (apply lookup_ge_None in E; lia).
      rewrite E. reflexivity.
  - rewrite list_lookup_insert_ne by congruence.
    destruct (a !! k) as [x|]; [|reflexivity]. simpl. f_equal.
    destruct (Z.leb_spec (i + 1) (Z.of_nat k)), (Z.leb_spec i (Z.of_nat k)),
      (Z.ltb_spec (Z.of_nat k) (i + 1 + Z.of_nat n)),
      (Z.ltb_spec (Z.of_nat k) (i + Z.of_nat (S n))); simpl; try reflexivity; lia.
Qed.

Lemma fill_get_inside g i n a k :
  0 <= k < Z.of_nat (length a) -> i <= k < i + Z.of_nat n ->
  array_get (fill g i n a) k = Some (g k).
Proof.
  intros Hk Hin. unfold array_get. destruct (Z.leb_spec 0 k); [|lia].
  rewrite fill_lookup.
  destruct (lookup_lt_is_Some_2 a (Z.to_nat k)) as [x ->]; [lia|].
  simpl. rewrite Z2Nat.id by lia.
  destruct (Z.leb_spec i k), (Z.ltb_spec k (i + Z.of_nat n)); simpl;
    try reflexivity; lia.
Qed.

Lemma fill_get_outside g i n a k :
  ~ i <= k < i + Z.of_nat n ->
  array_get (fill g i n a) k = array_get a k.
Proof.
  intros Hout. unfold array_get. destruct (Z.leb_spec 0 k); [|reflexivity].
  rewrite fill_lookup.
  destruct (a !! Z.to_nat k) as [x|]; [|reflexivity].
  simpl. rewrite Z2Nat.id by lia.
  destruct (Z.leb_spec i k), (Z.ltb_spec k (i + Z.of_nat n)); simpl;
    try reflexivity; lia.
Qed.
End ArrayFacts.

(** ** The decimation filter *)

Section Filter.
Variable NC : Z.

Lemma half_sample_get st base i :
  valid_data_buffer st = Some base ->
  0 <= base + i < Z.of_nat (length (raw_data_buffer st)) ->
  valid_data_get st i = Some (half_sample st i).
Proof.
  intros Hb Hi. unfold half_sample, valid_data_get. rewrite Hb. simpl.
  destruct (array_get_in_range (raw_data_buffer st) (base + i) Hi) as [x ->].
  reflexivity.
Qed.

Lemma coeff_get st s :
  0 <= s < Z.of_nat (length (fir_coeffs st)) ->
  array_get (fir_coeffs st) s = Some (coeff st s).
Proof.
  intros Hs. unfold coeff.
  destruct (array_get_in_range (fir_coeffs st) s Hs) as [x ->]. reflexivity.
Qed.

(** An index [chan + sample * NC] of the filter stays inside the half. *)
Lemma filter_index_in_half (os chan sample : Z) :
  0 <= chan < NC -> 0 <= sample < os ->
  0 <= chan + sample * NC < NC * os.
Proof. intros Hc Hs. nia. Qed.

Lemma sample_loop_sum st base chan n s0 a :
  valid_data_buffer st = Some base ->
  half_in_buffer NC st base ->
  0 <= chan < NC -> 0 <= s0 ->
  s0 + Z.of_nat n <= adc_oversample st ->
  adc_oversample st <= Z.of_nat (length (fir_coeffs st)) ->
  sample_loop NC st chan n s0 (int32 a) =
  Some (int32 (a + Zsum ((fun s => half_sample st (chan + s * NC) * coeff st s)
                           <$> seqZ s0 (Z.of_nat n)))).
Proof.
  intros Hb [Hb0 Hb1] Hc. unfold half_size in Hb1.
  revert s0 a. induction n as [|n IH]; intros s0 a Hs0 Hn Hfir.
  - simpl. f_equal. f_equal. lia.
  - cbn [sample_loop].
    pose proof (filter_index_in_half (adc_oversample st) chan s0 Hc) as Hidx.
    rewrite (half_sample_get st base) by (try assumption; lia).
    rewrite coeff_get by lia. simpl.
    rewrite int32_add_idemp_l, int32_add_idemp_r.
    rewrite IH by lia.
    rewrite (seqZ_cons s0 (Z.of_nat (S n))) by lia.
    rewrite fmap_cons. cbn [Zsum foldr].
    replace (Z.pred (Z.of_nat (S n))) with (Z.of_nat n) by lia.
    replace (Z.succ s0) with (s0 + 1) by lia.
    f_equal. f_equal. fold (Zsum). unfold Zsum. lia.
Qed.

(** One channel: the accumulator ends at the weighted sum, reduced to 32
    bits. *)
Lemma sample_loop_accumulated st base chan :
  valid_data_buffer st = Some base ->
  half_in_buffer NC st base ->
  0 <= chan < NC ->
  0 <= adc_oversample st <= Z.of_nat (length (fir_coeffs st)) ->
  sample_loop NC st chan (Z.to_nat (adc_oversample st)) 0 0 =
  Some (accumulated NC st chan).
Proof.
  intros Hb Hh Hc Hos.
  change 0 with (int32 0) at 2.
  rewrite (sample_loop_sum st base) by (try assumption; lia).
  unfold accumulated, weighted_sum. rewrite Z2Nat.id by lia. reflexivity.
Qed.

Lemma chan_loop_fill st base n chan :
  valid_data_buffer st = Some base ->
  half_in_buffer NC st base ->
  tables_ok NC st ->
  0 <= chan -> chan + Z.of_nat n <= NC ->
  chan_loop NC n chan st =
  Some (set_downsampled_buffer
          (fill (decimated NC st) chan n (downsampled_buffer st)) st).
Proof.
  intros Hb Hh (Hnc & Hos & _ & Hdown).
  revert chan st Hb Hh Hos Hdown.
  induction n as [|n IH]; intros chan st Hb Hh Hos Hdown Hc Hn.
  - simpl. rewrite fill_nil. destruct st; reflexivity.
  - cbn [chan_loop].
    rewrite (sample_loop_accumulated st base) by (try assumption; lia).
    simpl. rewrite coeff_get by lia. simpl.
    rewrite array_set_in_range by lia. simpl.
    rewrite IH; try assumption; try lia.
    + f_equal. cbn [downsampled_buffer set_downsampled_buffer].
      change (decimated NC (set_downsampled_buffer _ st)) with (decimated NC st).
      fold (normalise (accumulated NC st chan) (coeff st (adc_oversample st))).
      fold (decimated NC st chan).
      rewrite fill_step by lia. reflexivity.
    + cbn [downsampled_buffer set_downsampled_buffer]. rewrite length_insert. lia.
Qed.

Lemma downsample_data_pass st base :
  valid_data_buffer st = Some base ->
  half_in_buffer NC st base ->
  tables_ok NC st ->
  AHRS_ADC_downsample_data NC st = Some (after_pass NC st).
Proof.
  intros Hb Hh Ht. unfold AHRS_ADC_downsample_data.
  rewrite (chan_loop_fill st base) by (try assumption; destruct Ht; lia).
  simpl. unfold after_pass, dispatch, decimate.
  destruct (callback_function st); simpl.
  - reflexivity.
  - rewrite app_nil_r. destruct st; reflexivity.
Qed.

Lemma after_pass_get st c :
  0 <= c < NC -> NC <= Z.of_nat (length (downsampled_buffer st)) ->
  array_get (downsampled_buffer (after_pass NC st)) c = Some (decimated NC st c).
Proof.
  intros Hc Hlen. cbn [after_pass downsampled_buffer set_trace set_downsampled_buffer].
  unfold decimate. apply fill_get_inside; lia.
Qed.

Lemma decimated_filtered st c :
  in_int32 (weighted_sum NC st c) -> decimated NC st c = filtered NC st c.
Proof.
  intros H. unfold decimated, filtered, accumulated. rewrite int32_small by exact H.
  reflexivity.
Qed.

End Filter.

(** ** Decimation *)

(** C1 (as amended).  For every number of channels and oversample factor
    whose accesses stay inside the arrays, and every state of the valid
    half-buffer and coefficient table in which each channel's weighted sum
    fits the signed 32-bit accumulator, [AHRS_ADC_downsample_data] returns
    and stores, for each channel [c] in [[0, num_channels)],
    [(float) sum / coeff[oversample_factor]] with [sum] the sum over [s] of
    [raw[c + s * num_channels] * coeff[s]].  In particular two channels,
    factor 3, coefficients [1,1,1,3] and the half-buffer [10,5,20,5,30,5]
    give 20.0 and 5.0. *)
Theorem downsample_data_formula (NC : Z) (st : adc_state) (base : Z) :
  valid_data_buffer st = Some base ->
  half_in_buffer NC st base ->
  tables_ok NC st ->
  (forall c, 0 <= c < NC -> in_int32 (weighted_sum NC st c)) ->
  exists st',
    AHRS_ADC_downsample_data NC st = Some st' /\
    (forall c, 0 <= c < NC ->
       array_get (downsampled_buffer st') c = Some (filtered NC st c)) /\
    (NC = 2 -> adc_oversample st = 3 ->
     coeff st <$> seqZ 0 4 = [1; 1; 1; 3] ->
     half_sample st <$> seqZ 0 6 = [10; 5; 20; 5; 30; 5] ->
     array_get (downsampled_buffer st') 0 = Some (Float32.of_int 20) /\
     array_get (downsampled_buffer st') 1 = Some (Float32.of_int 5)).
Proof.
  intros Hb Hh Ht Hfit. exists (after_pass NC st).
  assert (Hget : forall c, 0 <= c < NC ->
            array_get (downsampled_buffer (after_pass NC st)) c
            = Some (filtered NC st c)).
  { intros c Hc. rewrite after_pass_get by (destruct Ht as (? & ? & ? & ?); lia).
    rewrite decimated_filtered by auto. reflexivity. }
  split; [exact (downsample_data_pass NC st base Hb Hh Ht)|].
  split; [exact Hget|].
  intros -> Hos Hcoeff Hraw.
  rewrite !Hget by lia.
  unfold filtered, weighted_sum. rewrite Hos.
  change (seqZ 0 4) with [0; 1; 2; 3] in Hcoeff.
  change (seqZ 0 6) with [0; 1; 2; 3; 4; 5] in Hraw.
  change (seqZ 0 3) with [0; 1; 2].
  cbn [fmap list_fmap Zsum foldr] in Hcoeff, Hraw |- *.
  change (0 + 0 * 2) with 0. change (0 + 1 * 2) with 2. change (0 + 2 * 2) with 4.
  change (1 + 0 * 2) with 1. change (1 + 1 * 2) with 3. change (1 + 2 * 2) with 5.
  injection Hcoeff as -> -> -> ->. injection Hraw as -> -> -> -> -> ->.
  split; reflexivity.
Qed.

Lemma downsample_data_formula_witness :
  valid_data_buffer boxcar_example = Some 0 /\
  half_in_buffer 2 boxcar_example 0 /\
  tables_ok 2 boxcar_example /\
  (forall c, 0 <= c < 2 -> in_int32 (weighted_sum 2 boxcar_example c)) /\
  exists st',
    AHRS_ADC_downsample_data 2 boxcar_example = Some st' /\
    (forall c, 0 <= c < 2 ->
       array_get (downsampled_buffer st') c = Some (filtered 2 boxcar_example c)) /\
    (2 = 2 -> adc_oversample boxcar_example = 3 ->
     coeff boxcar_example <$> seqZ 0 4 = [1; 1; 1; 3] ->
     half_sample boxcar_example <$> seqZ 0 6 = [10; 5; 20; 5; 30; 5] ->
     array_get (downsampled_buffer st') 0 = Some (Float32.of_int 20) /\
     array_get (downsampled_buffer st') 1 = Some (Float32.of_int 5)).
Proof.
  assert (Hb : valid_data_buffer boxcar_example = Some 0) by reflexivity.
  assert (Hh : half_in_buffer 2 boxcar_example 0) by (vm_compute; split; discriminate).
  assert (Ht : tables_ok 2 boxcar_example).
  { solve_bounds. }
  assert (Hfit : forall c, 0 <= c < 2 -> in_int32 (weighted_sum 2 boxcar_example c)).
  { intros c Hc. assert (c = 0 \/ c = 1) as [-> | ->] by lia;
      vm_compute; split; discriminate. }
  repeat (split; [assumption|]).
  exact (downsample_data_formula 2 boxcar_example 0 Hb Hh Ht Hfit).
Defined.

(** Seventeen full-scale samples with weight 32767 sum to 2281074705, beyond
    the largest 32-bit signed integer; the accumulator holds -2013892591, and
    that is what is normalised and stored. *)
Lemma downsample_data_accumulator_wraps :
  wf_state 1 18 36 overflow_example /\
  forallb (fun x => (0 <=? x) && (x <=? 4095)) (raw_data_buffer overflow_example) = true /\
  forallb (fun x => (INT16_MIN <=? x) && (x <=? INT16_MAX)) (fir_coeffs overflow_example) = true /\
  valid_data_buffer overflow_example = Some 0 /\
  half_in_buffer 1 overflow_example 0 /\
  tables_ok 1 overflow_example /\
  weighted_sum 1 overflow_example 0 = 2281074705 /\
  exists st',
    AHRS_ADC_downsample_data 1 overflow_example = Some st' /\
    array_get (downsampled_buffer st') 0 = Some (normalise (-2013892591) 1) /\
    array_get (downsampled_buffer st') 0 <> Some (filtered 1 overflow_example 0).
Proof.
  split; [solve_bounds|].
  split; [reflexivity|]. split; [reflexivity|].
  split; [reflexivity|].
  split; [vm_compute; split; discriminate|].
  split; [solve_bounds|].
  split; [vm_compute; reflexivity|].
  eexists. split; [vm_compute; reflexivity|].
  split; [vm_compute; reflexivity|].
  vm_compute. discriminate.
Qed.

(** C8.  With no callback registered, [AHRS_ADC_downsample_data] returns,
    writes for every channel the value the filter computes (the same buffer
    a pass with a callback registered writes), changes nothing else, and
    makes no call. *)
Theorem downsample_data_without_callback (NC : Z) (st : adc_state) (base : Z) :
  callback_function st = None ->
  valid_data_buffer st = Some base ->
  half_in_buffer NC st base ->
  tables_ok NC st ->
  exists st',
    AHRS_ADC_downsample_data NC st = Some st' /\
    st' = set_downsampled_buffer (decimate NC st) st /\
    trace st' = trace st /\
    (forall c, 0 <= c < NC ->
       array_get (downsampled_buffer st') c = Some (decimated NC st c) /\
       (in_int32 (weighted_sum NC st c) ->
        array_get (downsampled_buffer st') c = Some (filtered NC st c))) /\
    (forall fn, exists st'',
       AHRS_ADC_downsample_data NC (AHRS_ADC_SetCallback (Some fn) st) = Some st'' /\
       downsampled_buffer st'' = downsampled_buffer st' /\
       trace st'' = trace st ++ [CallbackCall fn (downsampled_buffer st')]).
Proof.
  intros Hcb Hb Hh Ht.
  pose proof (downsample_data_pass NC st base Hb Hh Ht) as Hpass.
  assert (Hst : after_pass NC st = set_downsampled_buffer (decimate NC st) st).
  { unfold after_pass, dispatch. rewrite Hcb, app_nil_r.
    destruct st; reflexivity. }
  rewrite Hst in Hpass.
  exists (set_downsampled_buffer (decimate NC st) st).
  split; [exact Hpass|]. split; [reflexivity|]. split; [reflexivity|].
  split.
  - intros c Hc.
    assert (Hget : array_get (downsampled_buffer
                     (set_downsampled_buffer (decimate NC st) st)) c
                   = Some (decimated NC st c)).
    { rewrite <- Hst. apply after_pass_get; [lia|]. destruct Ht as (? & ? & ? & ?); lia. }
    split; [exact Hget|].
    intros Hfit. rewrite Hget, decimated_filtered by exact Hfit. reflexivity.
  - intros fn. exists (after_pass NC (AHRS_ADC_SetCallback (Some fn) st)).
    split; [|split; reflexivity].
    apply (downsample_data_pass NC _ base); assumption.
Qed.

Lemma downsample_data_without_callback_witness :
  callback_function boxcar_example = None /\
  valid_data_buffer boxcar_example = Some 0 /\
  half_in_buffer 2 boxcar_example 0 /\
  tables_ok 2 boxcar_example /\
  exists st',
    AHRS_ADC_downsample_data 2 boxcar_example = Some st' /\
    st' = set_downsampled_buffer (decimate 2 boxcar_example) boxcar_example /\
    trace st' = trace boxcar_example /\
    (forall c, 0 <= c < 2 ->
       array_get (downsampled_buffer st') c = Some (decimated 2 boxcar_example c) /\
       (in_int32 (weighted_sum 2 boxcar_example c) ->
        array_get (downsampled_buffer st') c = Some (filtered 2 boxcar_example c))) /\
    (forall fn, exists st'',
       AHRS_ADC_downsample_data 2 (AHRS_ADC_SetCallback (Some fn) boxcar_example)
         = Some st'' /\
       downsampled_buffer st'' = downsampled_buffer st' /\
       trace st'' = trace boxcar_example ++ [CallbackCall fn (downsampled_buffer st')]).
Proof.
  assert (Hcb : callback_function boxcar_example = None) by reflexivity.
  assert (Hb : valid_data_buffer boxcar_example = Some 0) by reflexivity.
  assert (Hh : half_in_buffer 2 boxcar_example 0) by (vm_compute; split; discriminate).
  assert (Ht : tables_ok 2 boxcar_example).
  { solve_bounds. }
  repeat (split; [assumption|]).
  exact (downsample_data_without_callback 2 boxcar_example 0 Hcb Hb Hh Ht).
Defined.

(** ** The buffer-swap handler *)

Section Handler.
Variable NC : Z.

Lemma handler_full_transfer st :
  DMA_GetFlagStatus DMA1_IT_TC1 st = true ->
  AHRS_ADC_DMA_Handler NC st =
  AHRS_ADC_downsample_data NC (swap_to DMA1_IT_TC1 (half_size NC st) st).
Proof.
  intros Htc. unfold AHRS_ADC_DMA_Handler. rewrite Htc.
  unfold swap_to, half_size. rewrite <- Z.mul_assoc, Z.mul_1_l. reflexivity.
Qed.

Lemma handler_half_transfer st :
  DMA_GetFlagStatus DMA1_IT_TC1 st = false ->
  DMA_GetFlagStatus DMA1_IT_HT1 st = true ->
  AHRS_ADC_DMA_Handler NC st =
  AHRS_ADC_downsample_data NC (swap_to DMA1_IT_HT1 0 st).
Proof.
  intros Htc Hht. unfold AHRS_ADC_DMA_Handler. rewrite Htc, Hht.
  unfold swap_to. rewrite <- Z.mul_assoc, Z.mul_0_l. reflexivity.
Qed.

Lemma handler_no_transfer st :
  DMA_GetFlagStatus DMA1_IT_TC1 st = false ->
  DMA_GetFlagStatus DMA1_IT_HT1 st = false ->
  AHRS_ADC_DMA_Handler NC st = Some (DMA_ClearFlag DMA1_FLAG_GL1 st).
Proof.
  intros Htc Hht. unfold AHRS_ADC_DMA_Handler. rewrite Htc, Hht. reflexivity.
Qed.

Lemma half_size_nonneg st : tables_ok NC st -> 0 <= half_size NC st.
Proof. intros (Hnc & Hos & _). unfold half_size. nia. Qed.

Lemma swap_pass st flag base :
  geometry_ok NC st ->
  base = 0 \/ base = half_size NC st ->
  AHRS_ADC_downsample_data NC (swap_to flag base st) =
  Some (after_pass NC (swap_to flag base st)).
Proof.
  intros [Ht Hraw] Hbase.
  pose proof (half_size_nonneg st Ht) as Hpos.
  apply (downsample_data_pass NC _ base).
  - reflexivity.
  - unfold half_in_buffer.
    change (half_size NC (swap_to flag base st)) with (half_size NC st).
    change (raw_data_buffer (swap_to flag base st)) with (raw_data_buffer st).
    lia.
  - exact Ht.
Qed.

End Handler.

(** C2.  On a half-transfer-complete signal (the half-transfer flag pending
    and the full-transfer flag not: the handler tests full-transfer first)
    the handler publishes offset 0, clears the half-transfer flag and runs
    the decimation filter before returning; on a full-transfer-complete
    signal it publishes offset [num_channels * oversample_factor], clears
    the full-transfer flag and runs the filter before returning. *)
Theorem dma_handler_swaps_and_decimates (NC : Z) (st : adc_state) :
  geometry_ok NC st ->
  (DMA_GetFlagStatus DMA1_IT_TC1 st = false ->
   DMA_GetFlagStatus DMA1_IT_HT1 st = true ->
   exists st',
     AHRS_ADC_DMA_Handler NC st = Some st' /\
     AHRS_ADC_downsample_data NC (swap_to DMA1_IT_HT1 0 st) = Some st' /\
     valid_data_buffer st' = Some 0 /\
     DMA_GetFlagStatus DMA1_IT_HT1 st' = false /\
     downsampled_buffer st' = decimate NC (swap_to DMA1_IT_HT1 0 st) /\
     trace st' = trace st ++ dispatch NC (swap_to DMA1_IT_HT1 0 st)) /\
  (DMA_GetFlagStatus DMA1_IT_TC1 st = true ->
   exists st',
     AHRS_ADC_DMA_Handler NC st = Some st' /\
     AHRS_ADC_downsample_data NC
       (swap_to DMA1_IT_TC1 (NC * adc_oversample st) st) = Some st' /\
     valid_data_buffer st' = Some (NC * adc_oversample st) /\
     DMA_GetFlagStatus DMA1_IT_TC1 st' = false /\
     downsampled_buffer st' =
       decimate NC (swap_to DMA1_IT_TC1 (NC * adc_oversample st) st) /\
     trace st' =
       trace st ++ dispatch NC (swap_to DMA1_IT_TC1 (NC * adc_oversample st) st)).
Proof.
  intros Hg. split.
  - intros Htc Hht.
    exists (after_pass NC (swap_to DMA1_IT_HT1 0 st)).
    rewrite handler_half_transfer by assumption.
    rewrite swap_pass by (try assumption; left; reflexivity).
    repeat split; reflexivity.
  - intros Htc.
    exists (after_pass NC (swap_to DMA1_IT_TC1 (NC * adc_oversample st) st)).
    rewrite handler_full_transfer by assumption.
    fold (half_size NC st).
    rewrite swap_pass by (try assumption; right; reflexivity).
    repeat split; reflexivity.
Qed.

(** C7.  On a signal that is neither half- nor full-transfer-complete the
    handler clears the generic flag and does nothing else: the valid-half
    pointer, the downsampled buffer and the coefficient table keep their
    values and no call is made. *)
Theorem dma_handler_absorbs_other_signal (NC : Z) (st : adc_state) :
  DMA_GetFlagStatus DMA1_IT_TC1 st = false ->
  DMA_GetFlagStatus DMA1_IT_HT1 st = false ->
  exists st',
    AHRS_ADC_DMA_Handler NC st = Some st' /\
    st' = DMA_ClearFlag DMA1_FLAG_GL1 st /\
    DMA_GetFlagStatus DMA1_FLAG_GL1 st' = false /\
    valid_data_buffer st' = valid_data_buffer st /\
    downsampled_buffer st' = downsampled_buffer st /\
    fir_coeffs st' = fir_coeffs st /\
    raw_data_buffer st' = raw_data_buffer st /\
    adc_oversample st' = adc_oversample st /\
    callback_function st' = callback_function st /\
    trace st' = trace st.
Proof.
  intros Htc Hht. exists (DMA_ClearFlag DMA1_FLAG_GL1 st).
  split; [apply handler_no_transfer; assumption|].
  repeat split; reflexivity.
Qed.

(** ** Runs of interrupts *)

Section Runs.
Variable NC : Z.

Lemma interrupt_handled e st :
  idle st -> geometry_ok NC st ->
  length (samples e) = length (raw_data_buffer st) ->
  interrupt NC e st = Some (handled NC e st).
Proof.
  intros [Htc Hht] Hg Hlen. unfold interrupt, handled.
  assert (Hg' : geometry_ok NC (dma_deliver e st)).
  { destruct Hg as [Ht Hraw]. split; [exact Ht|].
    change (half_size NC (dma_deliver e st)) with (half_size NC st).
    cbn [dma_deliver raise_signal set_dma_status_reg set_raw_data_buffer raw_data_buffer].
    rewrite Hlen. exact Hraw. }
  unfold DMA_GetFlagStatus in Htc, Hht.
  destruct (signal e) eqn:Hsig.
  - rewrite handler_half_transfer.
    + apply swap_pass; [exact Hg'|left; reflexivity].
    + unfold dma_deliver. rewrite Hsig. exact Htc.
    + unfold dma_deliver. rewrite Hsig. reflexivity.
  - rewrite handler_full_transfer.
    + apply swap_pass; [exact Hg'|right; reflexivity].
    + unfold dma_deliver. rewrite Hsig. reflexivity.
  - apply handler_no_transfer; unfold dma_deliver; rewrite Hsig; assumption.
Qed.

Lemma length_decimate st :
  length (decimate NC st) = length (downsampled_buffer st).
Proof. unfold decimate. apply length_fill. Qed.

Lemma handled_kept e st :
  length (samples e) = length (raw_data_buffer st) ->
  configuration_kept st (handled NC e st).
Proof.
  intros Hlen. unfold configuration_kept, handled.
  destruct (signal e);
    cbn [after_pass swap_to DMA_ClearFlag dma_deliver raise_signal set_trace
         set_downsampled_buffer set_dma_status_reg set_valid_data_buffer
         set_raw_data_buffer adc_oversample fir_coeffs callback_function
         downsampled_buffer raw_data_buffer];
    rewrite ?length_decimate; repeat split; exact Hlen.
Qed.

Lemma handled_idle e st : idle st -> idle (handled NC e st).
Proof.
  intros [Htc Hht]. unfold idle, handled, dma_deliver, raise_signal, DMA_GetFlagStatus in *.
  destruct (signal e);
    cbn [after_pass swap_to DMA_ClearFlag dma_deliver raise_signal set_trace
         set_downsampled_buffer set_dma_status_reg set_valid_data_buffer
         set_raw_data_buffer dma_status_reg tc1 ht1];
    split; first [reflexivity | assumption].
Qed.

Lemma kept_geometry st st' :
  configuration_kept st st' -> geometry_ok NC st -> geometry_ok NC st'.
Proof.
  intros (Hos & Hfir & _ & Hdown & Hraw) [(Hnc & Hosr & H8 & Hd) Hr].
  unfold geometry_ok, tables_ok, half_size in *.
  rewrite Hos, Hfir, Hdown, Hraw. auto.
Qed.

Lemma kept_trans st1 st2 st3 :
  configuration_kept st1 st2 -> configuration_kept st2 st3 ->
  configuration_kept st1 st3.
Proof.
  unfold configuration_kept. intros (? & ? & ? & ? & ?) (? & ? & ? & ? & ?).
  repeat split; congruence.
Qed.

Lemma kept_well_sized st st' es :
  configuration_kept st st' -> well_sized st es -> well_sized st' es.
Proof.
  intros (_ & _ & _ & _ & Hraw) Hws. unfold well_sized in *.
  rewrite Hraw. exact Hws.
Qed.

Lemma run_handled es st :
  idle st -> geometry_ok NC st -> well_sized st es ->
  run NC es st = Some (handled_states NC es st).
Proof.
  revert st. induction es as [|e es IH]; intros st Hidle Hg Hws; [reflexivity|].
  apply Forall_cons in Hws as [Hlen Hws].
  cbn [run handled_states]. rewrite interrupt_handled by assumption. simpl.
  pose proof (handled_kept e st Hlen) as Hk.
  rewrite IH; [reflexivity| | |].
  - apply handled_idle, Hidle.
  - exact (kept_geometry _ _ Hk Hg).
  - exact (kept_well_sized _ _ _ Hk Hws).
Qed.

Lemma length_handled_states es st :
  length (handled_states NC es st) = length es.
Proof. revert st. induction es as [|e es IH]; intros st; simpl; [|rewrite IH]; reflexivity. Qed.

(** Each state of a run is what its interrupt made of a state with the
    initial configuration. *)
Lemma handled_states_lookup es st i e s :
  well_sized st es ->
  es !! i = Some e -> handled_states NC es st !! i = Some s ->
  exists prev,
    s = handled NC e prev /\ configuration_kept st prev /\
    length (samples e) = length (raw_data_buffer prev).
Proof.
  revert st i. induction es as [|e0 es IH]; intros st i Hws He Hs; [discriminate|].
  apply Forall_cons in Hws as [Hlen Hws].
  destruct i as [|i]; simpl in He, Hs.
  - injection He as ->. injection Hs as <-. exists st.
    split; [reflexivity|]. split; [|exact Hlen].
    repeat split; reflexivity.
  - pose proof (handled_kept e0 st Hlen) as Hk.
    destruct (IH (handled NC e0 st) i (kept_well_sized _ _ _ Hk Hws) He Hs)
      as (prev & -> & Hkp & Hl).
    exists prev. split; [reflexivity|]. split; [|exact Hl].
    exact (kept_trans _ _ _ Hk Hkp).
Qed.

Lemma handled_published e prev :
  completion e ->
  valid_data_buffer (handled NC e prev) = Some (published_offset NC prev (signal e)) /\
  raw_data_buffer (handled NC e prev) = samples e.
Proof.
  intros [Hs | Hs]; unfold handled; rewrite Hs; split; reflexivity.
Qed.

Lemma handled_trace e prev fn :
  completion e -> callback_function prev = Some fn ->
  trace (handled NC e prev) =
  trace prev ++ [CallbackCall fn (downsampled_buffer (handled NC e prev))].
Proof.
  intros [Hs | Hs] Hcb; unfold handled; rewrite Hs;
    cbn [after_pass trace set_trace downsampled_buffer set_downsampled_buffer];
    unfold dispatch;
    cbn [callback_function swap_to DMA_ClearFlag set_dma_status_reg
         set_valid_data_buffer dma_deliver raise_signal set_raw_data_buffer];
    rewrite Hcb; reflexivity.
Qed.

Lemma handled_decimated e prev c :
  completion e -> tables_ok NC prev -> 0 <= c < NC ->
  array_get (downsampled_buffer (handled NC e prev)) c =
  Some (decimated NC (handled NC e prev) c).
Proof.
  intros [Hs | Hs] (Hnc & Hos & _ & Hd) Hc; unfold handled; rewrite Hs;
    rewrite after_pass_get by (try exact Hc; cbn; lia); reflexivity.
Qed.

Lemma default_last_cons {A} (a b x : A) (l : list A) :
  default a (last (x :: l)) = default b (last (x :: l)).
Proof.
  destruct (last (x :: l)) as [y|] eqn:E; [reflexivity|].
  apply last_None in E. discriminate.
Qed.

Lemma handled_states_trace es st fn :
  callback_function st = Some fn -> well_sized st es -> Forall completion es ->
  trace (default st (last (handled_states NC es st))) =
  trace st ++ ((fun s => CallbackCall fn (downsampled_buffer s))
                 <$> handled_states NC es st).
Proof.
  revert st. induction es as [|e es IH]; intros st Hcb Hws Hc.
  - simpl. rewrite app_nil_r. reflexivity.
  - apply Forall_cons in Hws as [Hlen Hws]. apply Forall_cons in Hc as [He Hc].
    pose proof (handled_kept e st Hlen) as Hk.
    assert (Hcb' : callback_function (handled NC e st) = Some fn).
    { destruct Hk as (_ & _ & -> & _). exact Hcb. }
    specialize (IH (handled NC e st) Hcb' (kept_well_sized _ _ _ Hk Hws) Hc).
    cbn [handled_states fmap list_fmap].
    rewrite (handled_trace e st fn He Hcb) in IH.
    rewrite <- app_assoc in IH. cbn [app] in IH. rewrite <- IH.
    destruct es as [|e' es']; [reflexivity|].
    cbn [handled_states]. rewrite last_cons_cons.
    rewrite (default_last_cons st (handled NC e st)). reflexivity.
Qed.

Lemma kept_published_offset st prev e :
  configuration_kept st prev -> completion e ->
  published_offset NC prev (signal e) = published_offset NC st (signal e).
Proof.
  intros (Hos & _) [Hs | Hs]; rewrite Hs; [reflexivity|].
  unfold published_offset, half_size. rewrite Hos. reflexivity.
Qed.

(** A run from an idle, well-dimensioned state is defined, and each of its
    completions publishes its half and holds the values decimated from it. *)
Lemma run_completions es st :
  idle st -> geometry_ok NC st -> well_sized st es -> Forall completion es ->
  exists sts,
    run NC es st = Some sts /\ sts = handled_states NC es st /\
    length sts = length es /\
    forall i e s, es !! i = Some e -> sts !! i = Some s ->
      raw_data_buffer s = samples e /\
      valid_data_buffer s = Some (published_offset NC st (signal e)) /\
      forall c, 0 <= c < NC ->
        array_get (downsampled_buffer s) c = Some (decimated NC s c).
Proof.
  intros Hidle Hg Hws Hc. exists (handled_states NC es st).
  split; [apply run_handled; assumption|]. split; [reflexivity|].
  split; [apply length_handled_states|].
  intros i e s He Hs.
  destruct (handled_states_lookup es st i e s Hws He Hs) as (prev & -> & Hk & Hl).
  assert (Hce : completion e).
  { rewrite Forall_forall in Hc. apply Hc. eapply list_elem_of_lookup_2, He. }
  destruct (handled_published e prev Hce) as [Hv Hr].
  split; [exact Hr|]. split.
  - rewrite Hv. f_equal. apply kept_published_offset; assumption.
  - intros c Hcr. apply handled_decimated; [exact Hce| |exact Hcr].
    apply (kept_geometry _ _ Hk Hg).
Qed.

End Runs.

(** ** Hand-off to the callback *)

(** C6.  In a run of N completion signals with a callback registered the
    callback is called exactly N times, once per signal and in signal
    order; each call is handed the downsampled buffer as the pass for that
    signal has just written it. *)
Theorem callback_once_per_signal (NC : Z) (fn : ADCCallback)
    (es : list dma_event) (st : adc_state) :
  callback_function st = Some fn ->
  idle st -> geometry_ok NC st -> well_sized st es ->
  Forall completion es ->
  exists sts,
    run NC es st = Some sts /\
    length sts = length es /\
    trace (default st (last sts)) =
      trace st ++ ((fun s => CallbackCall fn (downsampled_buffer s)) <$> sts) /\
    length (trace (default st (last sts))) = (length (trace st) + length es)%nat /\
    forall i e s, es !! i = Some e -> sts !! i = Some s ->
      raw_data_buffer s = samples e /\
      valid_data_buffer s = Some (published_offset NC st (signal e)) /\
      forall c, 0 <= c < NC ->
        array_get (downsampled_buffer s) c = Some (decimated NC s c).
Proof.
  intros Hcb Hidle Hg Hws Hc.
  destruct (run_completions NC es st Hidle Hg Hws Hc) as (sts & Hrun & -> & Hlen & Hsts).
  exists (handled_states NC es st).
  pose proof (handled_states_trace NC es st fn Hcb Hws Hc) as Htr.
  split; [exact Hrun|]. split; [exact Hlen|]. split; [exact Htr|].
  split; [|exact Hsts].
  rewrite Htr, length_app, length_fmap, Hlen. reflexivity.
Qed.

(** ** Double buffering *)

(** C3.  In a run of alternating half- and full-transfer signals, with a
    positive number of channels and oversample factor, the halves published
    after two consecutive signals differ and share no sample; after a
    half-transfer signal followed by a full-transfer signal they are the
    two halves [[0, H)] and [[H, 2H)] of the double buffer,
    [H = num_channels * oversample_factor]. *)
Theorem published_halves_alternate (NC : Z) (es : list dma_event) (st : adc_state) :
  idle st -> geometry_ok NC st -> well_sized st es ->
  alternating es ->
  0 < NC -> 0 < adc_oversample st ->
  exists sts,
    run NC es st = Some sts /\
    length sts = length es /\
    forall i e1 e2 s1 s2,
      es !! i = Some e1 -> es !! S i = Some e2 ->
      sts !! i = Some s1 -> sts !! S i = Some s2 ->
      exists b1 b2,
        valid_data_buffer s1 = Some b1 /\ valid_data_buffer s2 = Some b2 /\
        b1 <> b2 /\
        (forall k, k ∈ half_region NC st b1 -> k ∉ half_region NC st b2) /\
        (signal e1 = HalfTransfer -> signal e2 = FullTransfer ->
         b1 = 0 /\ b2 = half_size NC st /\
         half_region NC st b1 ++ half_region NC st b2 =
           seqZ 0 (2 * half_size NC st)).
Proof.
  intros Hidle Hg Hws [Hc Halt] Hnc Hos.
  destruct (run_completions NC es st Hidle Hg Hws Hc) as (sts & Hrun & _ & Hlen & Hsts).
  exists sts. split; [exact Hrun|]. split; [exact Hlen|].
  intros i e1 e2 s1 s2 He1 He2 Hs1 Hs2.
  destruct (Hsts i e1 s1 He1 Hs1) as (_ & Hv1 & _).
  destruct (Hsts (S i) e2 s2 He2 Hs2) as (_ & Hv2 & _).
  exists (published_offset NC st (signal e1)), (published_offset NC st (signal e2)).
  split; [exact Hv1|]. split; [exact Hv2|].
  assert (HH : 0 < half_size NC st) by (unfold half_size; nia).
  pose proof (Halt i e1 e2 He1 He2) as Hne.
  assert (Hc1 : completion e1).
  { rewrite Forall_forall in Hc. apply Hc. eapply list_elem_of_lookup_2, He1. }
  assert (Hc2 : completion e2).
  { rewrite Forall_forall in Hc. apply Hc. eapply list_elem_of_lookup_2, He2. }
  unfold half_region.
  destruct Hc1 as [E1 | E1], Hc2 as [E2 | E2]; rewrite E1, E2 in *;
    try congruence; cbn [published_offset].
  - split; [lia|]. split.
    + intros k. rewrite !elem_of_seqZ. lia.
    + intros _ _. split; [reflexivity|]. split; [reflexivity|].
      replace (2 * half_size NC st) with (half_size NC st + half_size NC st) by lia.
      rewrite seqZ_app by lia. reflexivity.
  - split; [lia|]. split.
    + intros k. rewrite !elem_of_seqZ. lia.
    + intros [=].
Qed.

(** ** The coefficient table *)

Section Coefficients.
Variable NC : Z.

Lemma config_fir_loop_fill n i st :
  0 <= i -> i + Z.of_nat n <= Z.of_nat (length (fir_coeffs st)) ->
  config_fir_loop n i st =
  Some (set_fir_coeffs (fill (fun _ => 1) i n (fir_coeffs st)) st).
Proof.
  revert i st. induction n as [|n IH]; intros i st Hi Hn.
  - simpl. rewrite fill_nil. destruct st; reflexivity.
  - cbn [config_fir_loop]. rewrite array_set_in_range by lia. simpl.
    rewrite IH; [|lia|cbn; rewrite length_insert; lia].
    f_equal. cbn [fir_coeffs set_fir_coeffs].
    rewrite (fill_step (fun _ => 1)) by lia. reflexivity.
Qed.

(** The loop changes the coefficient table only, and never its size. *)
Lemma config_fir_loop_frame n i st st' :
  config_fir_loop n i st = Some st' ->
  st' = set_fir_coeffs (fir_coeffs st') st /\
  length (fir_coeffs st') = length (fir_coeffs st).
Proof.
  revert i st. induction n as [|n IH]; intros i st H.
  - injection H as <-. split; [destruct st|]; reflexivity.
  - cbn [config_fir_loop] in H.
    destruct (array_set (fir_coeffs st) i 1) as [fir|] eqn:E; [|discriminate].
    simpl in H. apply array_set_Some in E as [_ ->].
    apply IH in H as [Hst Hlen]. split.
    + rewrite Hst. reflexivity.
    + rewrite Hlen. cbn. apply length_insert.
Qed.

(** The state [AHRS_ADC_Config] starts its coefficient loop in. *)
Lemma config_in_range os st :
  0 <= os < Z.of_nat (length (fir_coeffs st)) ->
  exists st',
    AHRS_ADC_Config NC os st = Some (1, st') /\
    fir_coeffs st' =
      <[Z.to_nat os := int16 os]> (fill (fun _ => 1) 0 (Z.to_nat os) (fir_coeffs st)) /\
    adc_oversample st' = uint8 os /\
    raw_data_buffer st' = raw_data_buffer st /\
    downsampled_buffer st' = downsampled_buffer st /\
    DMA_BufferSize st' = uint32 (Z.shiftr (int32 (NC * os * 2)) 1).
Proof.
  intros Hos. unfold AHRS_ADC_Config.
  rewrite config_fir_loop_fill by (cbn; lia). simpl.
  rewrite array_set_in_range by (rewrite length_fill; cbn; lia).
  eexists. split; [reflexivity|]. repeat split; reflexivity.
Qed.

Lemma config_Some os st r :
  AHRS_ADC_Config NC os st = Some r ->
  0 <= os < Z.of_nat (length (fir_coeffs st)).
Proof.
  unfold AHRS_ADC_Config.
  destruct (config_fir_loop _ _ _) as [st1|] eqn:E1; [|discriminate]. simpl.
  destruct (array_set _ _ _) as [fir|] eqn:E2; [|discriminate]. intros _.
  apply array_set_Some in E2 as [Hr _].
  apply config_fir_loop_frame in E1 as [_ Hlen]. rewrite Hlen in Hr. exact Hr.
Qed.

Lemma set_fir_loop_fill nf n i st :
  0 <= i -> i + Z.of_nat n <= Z.of_nat (length (fir_coeffs st)) ->
  (forall k, i <= k < i + Z.of_nat n ->
     exists x, array_get nf k = Some x /\ is_Some (Float32.to_int16 x)) ->
  set_fir_loop nf n i st =
  Some (set_fir_coeffs (fill (converted nf) i n (fir_coeffs st)) st).
Proof.
  revert i st. induction n as [|n IH]; intros i st Hi Hn Hnf.
  - simpl. rewrite fill_nil. destruct st; reflexivity.
  - cbn [set_fir_loop].
    destruct (Hnf i) as (x & Hx & z & Hz); [lia|].
    rewrite Hx. simpl. rewrite Hz. simpl.
    rewrite array_set_in_range by lia. simpl.
    rewrite IH; [|lia|cbn; rewrite length_insert; lia|intros k Hk; apply Hnf; lia].
    f_equal. cbn [fir_coeffs set_fir_coeffs].
    assert (Hc : converted nf i = z).
    { unfold converted. rewrite Hx. simpl. rewrite Hz. reflexivity. }
    rewrite <- Hc. rewrite fill_step by lia. reflexivity.
Qed.

Lemma set_fir_loop_Some nf n i st st' :
  set_fir_loop nf n i st = Some st' ->
  (n = 0%nat \/ (0 <= i /\ i + Z.of_nat n <= Z.of_nat (length (fir_coeffs st)))) /\
  length (fir_coeffs st') = length (fir_coeffs st).
Proof.
  revert i st. induction n as [|n IH]; intros i st H.
  - injection H as <-. split; [left|]; reflexivity.
  - cbn [set_fir_loop] in H.
    destruct (array_get nf i) as [x|]; [|discriminate]. simpl in H.
    destruct (Float32.to_int16 x) as [z|]; [|discriminate]. simpl in H.
    destruct (array_set (fir_coeffs st) i z) as [fir|] eqn:E; [|discriminate].
    simpl in H. apply array_set_Some in E as [Hr ->].
    apply IH in H as [Hb Hlen].
    cbn [fir_coeffs set_fir_coeffs] in Hb, Hlen. rewrite length_insert in Hb, Hlen.
    split; [right|exact Hlen]. lia.
Qed.

Lemma set_fir_Some nf st st' :
  AHRS_ADC_SetFIRCoefficients nf st = Some st' ->
  adc_oversample st < Z.of_nat (length (fir_coeffs st)).
Proof.
  unfold AHRS_ADC_SetFIRCoefficients. intros H.
  apply set_fir_loop_Some in H as [[H0 | H1] _]; lia.
Qed.

End Coefficients.

(** C5.  After [AHRS_ADC_Config (oversample_factor)] returns, each of the
    first [oversample_factor] weights is 1 and the normalisation divisor,
    at index [oversample_factor], is [oversample_factor].  The factor lies
    inside the table and is representable in the table's element type. *)
Theorem config_boxcar_default (NC NP MAX_OVERSAMPLING MAX_SAMPLES : Z)
    (oversample : Z) (st : adc_state) :
  wf_state NP MAX_OVERSAMPLING MAX_SAMPLES st ->
  0 <= oversample < MAX_OVERSAMPLING ->
  oversample <= INT16_MAX ->
  exists st',
    AHRS_ADC_Config NC oversample st = Some (1, st') /\
    (forall i, 0 <= i < oversample -> array_get (fir_coeffs st') i = Some 1) /\
    array_get (fir_coeffs st') oversample = Some oversample /\
    (oversample < 256 -> adc_oversample st' = oversample).
Proof.
  intros (_ & Hfir & _) Hos H16.
  destruct (config_in_range NC oversample st) as (st' & Hcfg & Hf & Hfield & _); [lia|].
  exists st'. split; [exact Hcfg|].
  apply and_assoc. split; [|intros H8; rewrite Hfield; apply uint8_small; lia].
  assert (Hlen : Z.of_nat (length (fill (fun _ : Z => 1) 0 (Z.to_nat oversample)
                                     (fir_coeffs st))) = MAX_OVERSAMPLING).
  { rewrite length_fill. exact Hfir. }
  rewrite Hf. unfold array_get. split.
  - intros i Hi. destruct (Z.leb_spec 0 i); [|lia].
    rewrite list_lookup_insert_ne by lia.
    pose proof (fill_get_inside (fun _ : Z => 1) 0 (Z.to_nat oversample)
                  (fir_coeffs st) i) as Hg.
    unfold array_get in Hg. destruct (Z.leb_spec 0 i); [|lia].
    apply Hg; lia.
  - destruct (Z.leb_spec 0 oversample); [|lia].
    rewrite list_lookup_insert_eq by lia.
    rewrite int16_small; [reflexivity|].
    unfold in_int16, INT16_MIN, INT16_MAX in *. lia.
Qed.

(** C10.  The coefficient table has [MAX_OVERSAMPLING] entries and both
    [AHRS_ADC_Config] and [AHRS_ADC_SetFIRCoefficients] store the divisor
    at index [adc_oversample]: either returns only if the factor is below
    [MAX_OVERSAMPLING]; with the factor equal to [MAX_OVERSAMPLING] the
    weights are stored and the store of the divisor is outside the table. *)
Theorem fir_coeffs_store_bounds (NC NP MAX_OVERSAMPLING MAX_SAMPLES : Z)
    (st : adc_state) :
  wf_state NP MAX_OVERSAMPLING MAX_SAMPLES st ->
  (forall oversample,
     is_Some (AHRS_ADC_Config NC oversample st) <-> 0 <= oversample < MAX_OVERSAMPLING) /\
  (forall new_filter,
     is_Some (AHRS_ADC_SetFIRCoefficients new_filter st) ->
     adc_oversample st < MAX_OVERSAMPLING) /\
  (forall st0,
     length (fir_coeffs st0) = length (fir_coeffs st) ->
     exists st1,
       config_fir_loop (Z.to_nat MAX_OVERSAMPLING) 0 st0 = Some st1 /\
       array_set (fir_coeffs st1) MAX_OVERSAMPLING (int16 MAX_OVERSAMPLING) = None) /\
  AHRS_ADC_Config NC MAX_OVERSAMPLING st = None /\
  (adc_oversample st = MAX_OVERSAMPLING ->
   forall new_filter, AHRS_ADC_SetFIRCoefficients new_filter st = None).
Proof.
  intros (_ & Hfir & _).
  assert (Hcfg : forall oversample,
            is_Some (AHRS_ADC_Config NC oversample st) <-> 0 <= oversample < MAX_OVERSAMPLING).
  { intros os. split.
    - intros [r Hr]. apply config_Some in Hr. lia.
    - intros Hos. destruct (config_in_range NC os st) as (st' & -> & _); [lia|].
      eexists; reflexivity. }
  assert (Hset : forall nf, is_Some (AHRS_ADC_SetFIRCoefficients nf st) ->
            adc_oversample st < MAX_OVERSAMPLING).
  { intros nf [st' Hs]. apply set_fir_Some in Hs. lia. }
  split; [exact Hcfg|]. split; [exact Hset|]. split; [|split].
  - intros st0 Hlen0. eexists. split.
    + apply config_fir_loop_fill; [lia|]. rewrite Hlen0. lia.
    + apply array_set_out_of_range.
      cbn [fir_coeffs set_fir_coeffs]. rewrite length_fill, Hlen0. lia.
  - destruct (AHRS_ADC_Config NC MAX_OVERSAMPLING st) as [r|] eqn:E; [|reflexivity].
    assert (Hs : is_Some (AHRS_ADC_Config NC MAX_OVERSAMPLING st)) by (rewrite E; eauto).
    apply Hcfg in Hs. lia.
  - intros Heq nf.
    destruct (AHRS_ADC_SetFIRCoefficients nf st) as [st'|] eqn:E; [|reflexivity].
    assert (Hs : is_Some (AHRS_ADC_SetFIRCoefficients nf st)) by (rewrite E; eauto).
    apply Hset in Hs. lia.
Qed.

(** ** Conversion of caller-supplied coefficients *)

(** The conversion keeps the sign and the integral part of the magnitude:
    for [x = (-1)^s * m * 2^e], scaled to integers,
    [|z| <= |x| < |z| + 1]. *)
Lemma trunc_discards_fraction (s : bool) (m : positive) (e z : Z) :
  Float32.trunc (S754_finite s m e) = Some z ->
  z = cond_Zopp s (Z.abs z) /\
  Z.abs z * 2 ^ Z.max 0 (- e) <= Z.pos m * 2 ^ Z.max 0 e
    < (Z.abs z + 1) * 2 ^ Z.max 0 (- e).
Proof.
  unfold Float32.trunc. intros [= <-].
  destruct e as [|p|p].
  - change (2 ^ Z.max 0 (- 0)) with 1. change (2 ^ Z.max 0 0) with 1.
    change (2 ^ 0) with 1. destruct s; cbn [cond_Zopp]; lia.
  - replace (Z.max 0 (- Z.pos p)) with 0 by lia.
    replace (Z.max 0 (Z.pos p)) with (Z.pos p) by lia.
    change (2 ^ 0) with 1.
    assert (0 < 2 ^ Z.pos p) by (apply Z.pow_pos_nonneg; lia).
    destruct s; cbn [cond_Zopp]; nia.
  - replace (Z.max 0 (- Z.neg p)) with (Z.pos p) by lia.
    replace (Z.max 0 (Z.neg p)) with 0 by lia.
    change (2 ^ 0) with 1.
    assert (Hp : 0 < 2 ^ Z.pos p) by (apply Z.pow_pos_nonneg; lia).
    pose proof (Z.mul_div_le (Z.pos m) _ Hp) as Hlo.
    pose proof (Z.mul_succ_div_gt (Z.pos m) _ Hp) as Hhi.
    assert (0 <= Z.pos m / 2 ^ Z.pos p) by (apply Z.div_pos; lia).
    destruct s; cbn [cond_Zopp]; split; lia.
Qed.

Lemma to_int16_trunc (x : Float32.float) (z : Z) :
  Float32.to_int16 x = Some z -> Float32.trunc x = Some z /\ in_int16 z.
Proof.
  unfold Float32.to_int16. destruct (Float32.trunc x) as [t|]; [|discriminate].
  simpl.
  destruct (Z.leb_spec INT16_MIN t), (Z.leb_spec t INT16_MAX); simpl;
    try discriminate.
  intros [= <-]. split; [reflexivity|]. split; assumption.
Qed.

Lemma converted_truncated (nf : list Float32.float) (k : Z) :
  (exists x, array_get nf k = Some x /\ is_Some (Float32.to_int16 x)) ->
  converted nf k = truncated nf k /\ in_int16 (converted nf k) /\
  array_get nf k ≫= Float32.trunc = Some (truncated nf k).
Proof.
  intros (x & Hx & z & Hz). unfold converted, truncated. rewrite Hx. simpl.
  rewrite Hz. apply to_int16_trunc in Hz as [-> Hr]. simpl. auto.
Qed.

(** C9.  [AHRS_ADC_SetFIRCoefficients], given [oversample_factor + 1]
    floats, stores in each slot, the divisor's included, the integral part
    of the supplied value as a signed 16-bit integer, and the following
    decimation works with these integers.  The values supplied have an
    integral part that the 16-bit type represents. *)
Theorem set_fir_coefficients_truncates (NC : Z) (new_filter : list Float32.float)
    (st : adc_state) :
  0 <= adc_oversample st < Z.of_nat (length (fir_coeffs st)) ->
  Z.of_nat (length new_filter) = adc_oversample st + 1 ->
  Forall (fun x => is_Some (Float32.to_int16 x)) new_filter ->
  exists st',
    AHRS_ADC_SetFIRCoefficients new_filter st = Some st' /\
    st' = set_fir_coeffs (fir_coeffs st') st /\
    (forall i, 0 <= i <= adc_oversample st ->
       exists x z,
         array_get new_filter i = Some x /\ Float32.trunc x = Some z /\
         in_int16 z /\ array_get (fir_coeffs st') i = Some z) /\
    (forall c,
       decimated NC st' c =
       normalise
         (int32 (Zsum ((fun s => half_sample st (c + s * NC) * truncated new_filter s)
                         <$> seqZ 0 (adc_oversample st))))
         (truncated new_filter (adc_oversample st))) /\
    (forall base,
       valid_data_buffer st = Some base -> half_in_buffer NC st base ->
       tables_ok NC st ->
       exists st'',
         AHRS_ADC_downsample_data NC st' = Some st'' /\
         forall c, 0 <= c < NC ->
           array_get (downsampled_buffer st'') c = Some (decimated NC st' c)).
Proof.
  intros Hos Hlen Hconv.
  set (os := adc_oversample st) in *.
  assert (Hnf : forall k, 0 <= k < 0 + Z.of_nat (Z.to_nat (os + 1)) ->
            exists x, array_get new_filter k = Some x /\ is_Some (Float32.to_int16 x)).
  { intros k Hk.
    destruct (array_get_in_range new_filter k) as [x Hx]; [lia|].
    exists x. split; [exact Hx|].
    rewrite Forall_forall in Hconv. apply Hconv.
    unfold array_get in Hx. destruct (0 <=? k); [|discriminate].
    eapply list_elem_of_lookup_2, Hx. }
  set (fir' := fill (converted new_filter) 0 (Z.to_nat (os + 1)) (fir_coeffs st)).
  assert (Hrun : AHRS_ADC_SetFIRCoefficients new_filter st = Some (set_fir_coeffs fir' st)).
  { unfold AHRS_ADC_SetFIRCoefficients. fold os.
    apply set_fir_loop_fill; [lia|lia|exact Hnf]. }
  assert (Hcoeff : forall k, 0 <= k <= os ->
            array_get fir' k = Some (truncated new_filter k)).
  { intros k Hk. unfold fir'. rewrite fill_get_inside by lia.
    destruct (converted_truncated new_filter k) as (-> & _); [apply Hnf; lia|].
    reflexivity. }
  exists (set_fir_coeffs fir' st).
  split; [exact Hrun|]. split; [reflexivity|]. split; [|split].
  - intros i Hi. destruct (Hnf i) as (x & Hx & z & Hz); [lia|].
    destruct (to_int16_trunc x z Hz) as [Ht Hr].
    exists x, z. split; [exact Hx|]. split; [exact Ht|]. split; [exact Hr|].
    cbn [fir_coeffs set_fir_coeffs]. rewrite Hcoeff by lia.
    unfold truncated. rewrite Hx. simpl. rewrite Ht. reflexivity.
  - intros c. unfold decimated, accumulated, weighted_sum, coeff.
    cbn [fir_coeffs set_fir_coeffs adc_oversample]. fold os.
    rewrite Hcoeff by lia. simpl. f_equal. f_equal. f_equal.
    apply list_fmap_ext. intros j s Hs. apply lookup_seqZ in Hs as [-> Hj].
    rewrite Hcoeff by lia. reflexivity.
  - intros base Hb Hh Ht.
    destruct Ht as (Hnc & Hosr & H8 & Hd).
    exists (after_pass NC (set_fir_coeffs fir' st)). split.
    + apply (downsample_data_pass NC _ base); [exact Hb|exact Hh|].
      unfold tables_ok. cbn [fir_coeffs set_fir_coeffs adc_oversample downsampled_buffer].
      unfold fir'. rewrite length_fill. auto.
    + intros c Hc. apply after_pass_get; [exact Hc|exact Hd].
Qed.

(** ** Buffer geometry *)

Section Geometry.
Variables NC NP MAX_OVERSAMPLING MAX_SAMPLES : Z.

Lemma wf_geometry st :
  wf_state NP MAX_OVERSAMPLING MAX_SAMPLES st ->
  0 <= NC <= NP -> NC <= UINT16_MAX ->
  adc_oversample st < MAX_OVERSAMPLING ->
  NC * adc_oversample st * 2 <= MAX_SAMPLES ->
  geometry_ok NC st.
Proof.
  intros (Hraw & Hfir & Hdown & H8) Hnc H16 Hos Hfit.
  unfold geometry_ok, tables_ok, half_size. lia.
Qed.

Lemma handler_defined st : geometry_ok NC st -> is_Some (AHRS_ADC_DMA_Handler NC st).
Proof.
  intros Hg.
  destruct (DMA_GetFlagStatus DMA1_IT_TC1 st) eqn:Htc.
  - rewrite handler_full_transfer by exact Htc.
    rewrite swap_pass by (try exact Hg; right; reflexivity). eauto.
  - destruct (DMA_GetFlagStatus DMA1_IT_HT1 st) eqn:Hht.
    + rewrite handler_half_transfer by assumption.
      rewrite swap_pass by (try exact Hg; left; reflexivity). eauto.
    + rewrite handler_no_transfer by assumption. eauto.
Qed.

Lemma handler_publishes st st' :
  AHRS_ADC_DMA_Handler NC st = Some st' ->
  valid_data_buffer st' = valid_data_buffer st \/
  valid_data_buffer st' = Some 0 \/
  valid_data_buffer st' = Some (NC * adc_oversample st).
Proof.
  assert (Hchan : forall n chan s s', chan_loop NC n chan s = Some s' ->
            valid_data_buffer s' = valid_data_buffer s).
  { induction n as [|n IH]; intros chan s s' H.
    - injection H as <-. reflexivity.
    - cbn [chan_loop] in H.
      destruct (sample_loop _ _ _ _ _ _); [|discriminate]. simpl in H.
      destruct (array_get _ _); [|discriminate]. simpl in H.
      destruct (array_set _ _ _); [|discriminate]. simpl in H.
      apply IH in H. exact H. }
  assert (Hdown : forall s s', AHRS_ADC_downsample_data NC s = Some s' ->
            valid_data_buffer s' = valid_data_buffer s).
  { intros s s'. unfold AHRS_ADC_downsample_data.
    destruct (chan_loop _ _ _ _) as [s1|] eqn:E; [|discriminate]. simpl.
    apply Hchan in E. destruct (callback_function s1); intros [= <-]; exact E. }
  unfold AHRS_ADC_DMA_Handler.
  destruct (DMA_GetFlagStatus DMA1_IT_TC1 st).
  - intros H%Hdown. right. right. rewrite H. cbn. f_equal. lia.
  - destruct (DMA_GetFlagStatus DMA1_IT_HT1 st).
    + intros H%Hdown. right. left. rewrite H. cbn. f_equal.
    + intros [= <-]. left. reflexivity.
Qed.

End Geometry.

(** C4 (as amended).  The capacity of the raw sample buffer is the constant
    [MAX_SAMPLES], whatever factor is configured.  For every pair
    [(num_channels, oversample_factor)] that fits,
    [num_channels * oversample_factor * 2 <= MAX_SAMPLES], the double
    buffer is the first [num_channels * oversample_factor * 2] entries: the
    handler and the filter run with the buffer cut down to exactly these,
    so no index they use (the offsets 0 and
    [num_channels * oversample_factor], and [chan + sample * num_channels]
    within a half) falls outside them. *)
Theorem raw_buffer_window (NC NP MAX_OVERSAMPLING MAX_SAMPLES : Z) (st : adc_state) :
  wf_state NP MAX_OVERSAMPLING MAX_SAMPLES st ->
  0 <= NC <= NP -> NC <= UINT16_MAX ->
  adc_oversample st < MAX_OVERSAMPLING ->
  NC * adc_oversample st * 2 <= MAX_SAMPLES ->
  Z.of_nat (length (raw_data_buffer st)) = MAX_SAMPLES /\
  (forall oversample r,
     AHRS_ADC_Config NC oversample st = Some r ->
     raw_data_buffer r.2 = raw_data_buffer st) /\
  Z.of_nat (length (raw_data_buffer (double_buffer_only NC st)))
    = NC * adc_oversample st * 2 /\
  is_Some (AHRS_ADC_DMA_Handler NC (double_buffer_only NC st)) /\
  is_Some (AHRS_ADC_DMA_Handler NC st) /\
  (forall st',
     AHRS_ADC_DMA_Handler NC st = Some st' ->
     valid_data_buffer st' = valid_data_buffer st \/
     valid_data_buffer st' = Some 0 \/
     valid_data_buffer st' = Some (NC * adc_oversample st)) /\
  (forall base chan sample,
     base = 0 \/ base = NC * adc_oversample st ->
     0 <= chan < NC -> 0 <= sample < adc_oversample st ->
     0 <= base + (chan + sample * NC) < NC * adc_oversample st * 2).
Proof.
  intros Hwf Hnc H16 Hos Hfit.
  pose proof (wf_geometry NC NP MAX_OVERSAMPLING MAX_SAMPLES st Hwf Hnc H16 Hos Hfit) as Hg.
  destruct Hwf as (Hraw & Hfir & Hdown & H8).
  assert (Hlen : Z.of_nat (length (raw_data_buffer (double_buffer_only NC st)))
                 = NC * adc_oversample st * 2).
  { cbn [double_buffer_only set_raw_data_buffer raw_data_buffer].
    rewrite length_take. nia. }
  split; [exact Hraw|]. split; [|split; [exact Hlen|split; [|split; [|split]]]].
  - intros os r Hr. pose proof (config_Some NC os st r Hr) as Hin.
    destruct (config_in_range NC os st Hin) as (st' & Hc & _ & _ & Hr' & _).
    rewrite Hc in Hr. injection Hr as <-. exact Hr'.
  - apply handler_defined. destruct Hg as [Ht _]. split; [exact Ht|].
    rewrite Hlen. unfold half_size. cbn [double_buffer_only set_raw_data_buffer adc_oversample]. lia.
  - apply handler_defined, Hg.
  - apply handler_publishes.
  - intros base chan sample Hb Hc Hs.
    pose proof (filter_index_in_half NC (adc_oversample st) chan sample Hc Hs).
    destruct Hb as [-> | ->]; lia.
Qed.

(** The transfer count [AHRS_ADC_Config] programs, in 32-bit words of two
    samples each, spans [num_channels * oversample_factor * 2] samples. *)
Lemma config_dma_window (NC oversample : Z) (st st' : adc_state) :
  0 <= NC * oversample * 2 <= INT32_MAX ->
  AHRS_ADC_Config NC oversample st = Some (1, st') ->
  DMA_BufferSize st' * 2 = NC * oversample * 2.
Proof.
  intros Hr Hc. pose proof (config_Some NC oversample st _ Hc) as Hin.
  destruct (config_in_range NC oversample st Hin) as (st1 & Hc1 & _ & _ & _ & _ & Hd).
  rewrite Hc1 in Hc. injection Hc as <-. rewrite Hd.
  unfold INT32_MAX in Hr.
  rewrite int32_small by (unfold in_int32, INT32_MIN, INT32_MAX; lia).
  rewrite Z.shiftr_div_pow2 by lia. change (2 ^ 1) with 2.
  rewrite Z.div_mul by lia.
  unfold uint32, to_unsigned. rewrite Z.mod_small; [reflexivity|].
  change (2 ^ 32) with 4294967296. lia.
Qed.

(** ** The theorems at the worked examples *)

Lemma boxcar_example_wf : wf_state 2 4 16 boxcar_example.
Proof. solve_bounds. Qed.

Lemma boxcar_example_geometry (st : adc_state) :
  adc_oversample st = 3 ->
  length (raw_data_buffer st) = 16%nat ->
  length (fir_coeffs st) = 4%nat ->
  length (downsampled_buffer st) = 2%nat ->
  geometry_ok 2 st.
Proof.
  intros Hos Hraw Hfir Hdown.
  unfold geometry_ok, tables_ok, half_size, UINT8_MAX, UINT16_MAX.
  rewrite Hos, Hraw, Hfir, Hdown. lia.
Qed.

Lemma dma_handler_swaps_and_decimates_witness :
  let st := raise_signal HalfTransfer listening_example in
  geometry_ok 2 st /\
  ((DMA_GetFlagStatus DMA1_IT_TC1 st = false ->
    DMA_GetFlagStatus DMA1_IT_HT1 st = true ->
    exists st',
      AHRS_ADC_DMA_Handler 2 st = Some st' /\
      AHRS_ADC_downsample_data 2 (swap_to DMA1_IT_HT1 0 st) = Some st' /\
      valid_data_buffer st' = Some 0 /\
      DMA_GetFlagStatus DMA1_IT_HT1 st' = false /\
      downsampled_buffer st' = decimate 2 (swap_to DMA1_IT_HT1 0 st) /\
      trace st' = trace st ++ dispatch 2 (swap_to DMA1_IT_HT1 0 st)) /\
   (DMA_GetFlagStatus DMA1_IT_TC1 st = true ->
    exists st',
      AHRS_ADC_DMA_Handler 2 st = Some st' /\
      AHRS_ADC_downsample_data 2
        (swap_to DMA1_IT_TC1 (2 * adc_oversample st) st) = Some st' /\
      valid_data_buffer st' = Some (2 * adc_oversample st) /\
      DMA_GetFlagStatus DMA1_IT_TC1 st' = false /\
      downsampled_buffer st' =
        decimate 2 (swap_to DMA1_IT_TC1 (2 * adc_oversample st) st) /\
      trace st' =
        trace st ++ dispatch 2 (swap_to DMA1_IT_TC1 (2 * adc_oversample st) st))).
Proof.
  intros st.
  assert (Hg : geometry_ok 2 st) by (apply boxcar_example_geometry; reflexivity).
  split; [exact Hg|].
  exact (dma_handler_swaps_and_decimates 2 st Hg).
Defined.

Lemma dma_handler_absorbs_other_signal_witness :
  let st := raise_signal TransferError listening_example in
  DMA_GetFlagStatus DMA1_IT_TC1 st = false /\
  DMA_GetFlagStatus DMA1_IT_HT1 st = false /\
  exists st',
    AHRS_ADC_DMA_Handler 2 st = Some st' /\
    st' = DMA_ClearFlag DMA1_FLAG_GL1 st /\
    DMA_GetFlagStatus DMA1_FLAG_GL1 st' = false /\
    valid_data_buffer st' = valid_data_buffer st /\
    downsampled_buffer st' = downsampled_buffer st /\
    fir_coeffs st' = fir_coeffs st /\
    raw_data_buffer st' = raw_data_buffer st /\
    adc_oversample st' = adc_oversample st /\
    callback_function st' = callback_function st /\
    trace st' = trace st.
Proof.
  intros st. split; [reflexivity|]. split; [reflexivity|].
  exact (dma_handler_absorbs_other_signal 2 st eq_refl eq_refl).
Defined.

Lemma two_halves_example_alternating : alternating two_halves_example.
Proof.
  split.
  - constructor; [left; reflexivity|].
    constructor; [right; reflexivity|]. constructor.
  - intros [|[|i]] e1 e2 H1 H2; try discriminate.
    injection H1 as <-. injection H2 as <-. discriminate.
Qed.

Lemma two_halves_example_well_sized : well_sized listening_example two_halves_example.
Proof. repeat constructor. Qed.

Lemma listening_example_idle : idle listening_example.
Proof. split; reflexivity. Qed.

Lemma callback_once_per_signal_witness :
  callback_function listening_example = Some 1%positive /\
  idle listening_example /\ geometry_ok 2 listening_example /\
  well_sized listening_example two_halves_example /\
  Forall completion two_halves_example /\
  exists sts,
    run 2 two_halves_example listening_example = Some sts /\
    length sts = length two_halves_example /\
    trace (default listening_example (last sts)) =
      trace listening_example ++
      ((fun s => CallbackCall 1%positive (downsampled_buffer s)) <$> sts) /\
    length (trace (default listening_example (last sts))) =
      (length (trace listening_example) + length two_halves_example)%nat /\
    forall i e s, two_halves_example !! i = Some e -> sts !! i = Some s ->
      raw_data_buffer s = samples e /\
      valid_data_buffer s = Some (published_offset 2 listening_example (signal e)) /\
      forall c, 0 <= c < 2 ->
        array_get (downsampled_buffer s) c = Some (decimated 2 s c).
Proof.
  assert (Hg : geometry_ok 2 listening_example)
    by (apply boxcar_example_geometry; reflexivity).
  pose proof two_halves_example_alternating as [Hc _].
  split; [reflexivity|]. split; [exact listening_example_idle|].
  split; [exact Hg|]. split; [exact two_halves_example_well_sized|].
  split; [exact Hc|].
  exact (callback_once_per_signal 2 1%positive two_halves_example listening_example
           eq_refl listening_example_idle Hg two_halves_example_well_sized Hc).
Defined.

Lemma published_halves_alternate_witness :
  idle listening_example /\ geometry_ok 2 listening_example /\
  well_sized listening_example two_halves_example /\
  alternating two_halves_example /\
  0 < 2 /\ 0 < adc_oversample listening_example /\
  exists sts,
    run 2 two_halves_example listening_example = Some sts /\
    length sts = length two_halves_example /\
    forall i e1 e2 s1 s2,
      two_halves_example !! i = Some e1 -> two_halves_example !! S i = Some e2 ->
      sts !! i = Some s1 -> sts !! S i = Some s2 ->
      exists b1 b2,
        valid_data_buffer s1 = Some b1 /\ valid_data_buffer s2 = Some b2 /\
        b1 <> b2 /\
        (forall k, k ∈ half_region 2 listening_example b1 ->
                   k ∉ half_region 2 listening_example b2) /\
        (signal e1 = HalfTransfer -> signal e2 = FullTransfer ->
         b1 = 0 /\ b2 = half_size 2 listening_example /\
         half_region 2 listening_example b1 ++ half_region 2 listening_example b2 =
           seqZ 0 (2 * half_size 2 listening_example)).
Proof.
  assert (Hg : geometry_ok 2 listening_example)
    by (apply boxcar_example_geometry; reflexivity).
  assert (H2 : 0 < 2) by lia.
  assert (Hos : 0 < adc_oversample listening_example) by (simpl; lia).
  split; [exact listening_example_idle|]. split; [exact Hg|].
  split; [exact two_halves_example_well_sized|].
  split; [exact two_halves_example_alternating|].
  split; [exact H2|]. split; [exact Hos|].
  exact (published_halves_alternate 2 two_halves_example listening_example
           listening_example_idle Hg two_halves_example_well_sized
           two_halves_example_alternating H2 Hos).
Defined.

Lemma init_state_wf : wf_state 2 4 16 (init_state 2 4 16).
Proof. solve_bounds. Qed.

Lemma config_boxcar_default_witness :
  wf_state 2 4 16 (init_state 2 4 16) /\
  0 <= 3 < 4 /\ 3 <= INT16_MAX /\
  exists st',
    AHRS_ADC_Config 2 3 (init_state 2 4 16) = Some (1, st') /\
    (forall i, 0 <= i < 3 -> array_get (fir_coeffs st') i = Some 1) /\
    array_get (fir_coeffs st') 3 = Some 3 /\
    (3 < 256 -> adc_oversample st' = 3).
Proof.
  assert (H1 : 0 <= 3 < 4) by lia.
  assert (H2 : 3 <= INT16_MAX) by (unfold INT16_MAX; lia).
  split; [exact init_state_wf|]. split; [exact H1|]. split; [exact H2|].
  exact (config_boxcar_default 2 2 4 16 3 (init_state 2 4 16) init_state_wf H1 H2).
Defined.

Lemma fir_coeffs_store_bounds_witness :
  let st := init_state 2 4 16 in
  wf_state 2 4 16 st /\
  ((forall oversample,
      is_Some (AHRS_ADC_Config 2 oversample st) <-> 0 <= oversample < 4) /\
   (forall new_filter,
      is_Some (AHRS_ADC_SetFIRCoefficients new_filter st) ->
      adc_oversample st < 4) /\
   (forall st0,
      length (fir_coeffs st0) = length (fir_coeffs st) ->
      exists st1,
        config_fir_loop (Z.to_nat 4) 0 st0 = Some st1 /\
        array_set (fir_coeffs st1) 4 (int16 4) = None) /\
   AHRS_ADC_Config 2 4 st = None /\
   (adc_oversample st = 4 ->
    forall new_filter, AHRS_ADC_SetFIRCoefficients new_filter st = None)).
Proof.
  intros st. split; [exact init_state_wf|].
  exact (fir_coeffs_store_bounds 2 2 4 16 st init_state_wf).
Defined.

Lemma fractional_filter_example_convertible :
  Forall (fun x => is_Some (Float32.to_int16 x)) fractional_filter_example.
Proof. repeat (constructor; [eexists; vm_compute; reflexivity|]). constructor. Qed.

Lemma set_fir_coefficients_truncates_witness :
  0 <= adc_oversample boxcar_example < Z.of_nat (length (fir_coeffs boxcar_example)) /\
  Z.of_nat (length fractional_filter_example) = adc_oversample boxcar_example + 1 /\
  Forall (fun x => is_Some (Float32.to_int16 x)) fractional_filter_example /\
  exists st',
    AHRS_ADC_SetFIRCoefficients fractional_filter_example boxcar_example = Some st' /\
    st' = set_fir_coeffs (fir_coeffs st') boxcar_example /\
    (forall i, 0 <= i <= adc_oversample boxcar_example ->
       exists x z,
         array_get fractional_filter_example i = Some x /\
         Float32.trunc x = Some z /\
         in_int16 z /\ array_get (fir_coeffs st') i = Some z) /\
    (forall c,
       decimated 2 st' c =
       normalise
         (int32 (Zsum ((fun s => half_sample boxcar_example (c + s * 2)
                                 * truncated fractional_filter_example s)
                         <$> seqZ 0 (adc_oversample boxcar_example))))
         (truncated fractional_filter_example (adc_oversample boxcar_example))) /\
    (forall base,
       valid_data_buffer boxcar_example = Some base ->
       half_in_buffer 2 boxcar_example base ->
       tables_ok 2 boxcar_example ->
       exists st'',
         AHRS_ADC_downsample_data 2 st' = Some st'' /\
         forall c, 0 <= c < 2 ->
           array_get (downsampled_buffer st'') c = Some (decimated 2 st' c)).
Proof.
  assert (H1 : 0 <= adc_oversample boxcar_example
               < Z.of_nat (length (fir_coeffs boxcar_example))) by (simpl; lia).
  assert (H2 : Z.of_nat (length fractional_filter_example)
               = adc_oversample boxcar_example + 1) by reflexivity.
  split; [exact H1|]. split; [exact H2|].
  split; [exact fractional_filter_example_convertible|].
  exact (set_fir_coefficients_truncates 2 fractional_filter_example boxcar_example
           H1 H2 fractional_filter_example_convertible).
Defined.

(** The fractional weights 1.5, 2.75, 1.25, 4.5 are stored as 1, 2, 1, 4. *)
Example fractional_filter_example_stored :
  fir_coeffs <$> AHRS_ADC_SetFIRCoefficients fractional_filter_example boxcar_example
  = Some [1; 2; 1; 4].
Proof. vm_compute. reflexivity. Qed.

Lemma raw_buffer_window_witness :
  wf_state 2 4 16 boxcar_example /\
  0 <= 2 <= 2 /\ 2 <= UINT16_MAX /\
  adc_oversample boxcar_example < 4 /\
  2 * adc_oversample boxcar_example * 2 <= 16 /\
  Z.of_nat (length (raw_data_buffer boxcar_example)) = 16 /\
  (forall oversample r,
     AHRS_ADC_Config 2 oversample boxcar_example = Some r ->
     raw_data_buffer r.2 = raw_data_buffer boxcar_example) /\
  Z.of_nat (length (raw_data_buffer (double_buffer_only 2 boxcar_example)))
    = 2 * adc_oversample boxcar_example * 2 /\
  is_Some (AHRS_ADC_DMA_Handler 2 (double_buffer_only 2 boxcar_example)) /\
  is_Some (AHRS_ADC_DMA_Handler 2 boxcar_example) /\
  (forall st',
     AHRS_ADC_DMA_Handler 2 boxcar_example = Some st' ->
     valid_data_buffer st' = valid_data_buffer boxcar_example \/
     valid_data_buffer st' = Some 0 \/
     valid_data_buffer st' = Some (2 * adc_oversample boxcar_example)) /\
  (forall base chan sample,
     base = 0 \/ base = 2 * adc_oversample boxcar_example ->
     0 <= chan < 2 -> 0 <= sample < adc_oversample boxcar_example ->
     0 <= base + (chan + sample * 2) < 2 * adc_oversample boxcar_example * 2).
Proof.
  assert (H1 : 0 <= 2 <= 2) by lia.
  assert (H16 : 2 <= UINT16_MAX) by (unfold UINT16_MAX; lia).
  assert (H2 : adc_oversample boxcar_example < 4) by (simpl; lia).
  assert (H3 : 2 * adc_oversample boxcar_example * 2 <= 16) by (simpl; lia).
  split; [exact boxcar_example_wf|]. split; [exact H1|]. split; [exact H16|].
  split; [exact H2|]. split; [exact H3|].
  exact (raw_buffer_window 2 2 4 16 boxcar_example boxcar_example_wf H1 H16 H2 H3).
Defined.

(** Configured for two channels and factor 1 on a board whose buffer is
    declared with 16 entries, the buffer still has 16 entries, not
    [2 * 1 * 2 = 4]. *)
Lemma raw_buffer_capacity_exceeds_window :
  exists st',
    AHRS_ADC_Config 2 1 (init_state 2 4 16) = Some (1, st') /\
    wf_state 2 4 16 st' /\
    geometry_ok 2 st' /\
    adc_oversample st' = 1 /\
    Z.of_nat (length (raw_data_buffer st')) = 16 /\
    Z.of_nat (length (raw_data_buffer st')) <> 2 * adc_oversample st' * 2.
Proof.
  eexists. split; [vm_compute; reflexivity|].
  split; [solve_bounds|].
  split; [solve_bounds|].
  split; [reflexivity|]. split; [reflexivity|].
  simpl. lia.
Qed.

(** Whatever the board constants, the declared capacity can equal
    [num_channels * oversample_factor * 2] for one factor at most. *)
Lemma raw_buffer_capacity_one_factor (NC os1 os2 : Z) (st : adc_state) r1 r2 :
  0 < NC ->
  AHRS_ADC_Config NC os1 st = Some r1 ->
  AHRS_ADC_Config NC os2 st = Some r2 ->
  Z.of_nat (length (raw_data_buffer r1.2)) = NC * os1 * 2 ->
  Z.of_nat (length (raw_data_buffer r2.2)) = NC * os2 * 2 ->
  os1 = os2.
Proof.
  intros Hnc H1 H2 Hc1 Hc2.
  pose proof (config_Some NC os1 st r1 H1) as Hin1.
  pose proof (config_Some NC os2 st r2 H2) as Hin2.
  destruct (config_in_range NC os1 st Hin1) as (s1 & E1 & _ & _ & Hr1 & _).
  destruct (config_in_range NC os2 st Hin2) as (s2 & E2 & _ & _ & Hr2 & _).
  rewrite E1 in H1. injection H1 as <-. rewrite E2 in H2. injection H2 as <-.
  cbn [snd] in Hc1, Hc2. rewrite Hr1 in Hc1. rewrite Hr2 in Hc2. nia.
Qed.

(** ** Remarks on the design regime *)

Lemma Zsum_bound (l : list Z) (B : Z) :
  (forall x, x ∈ l -> - B <= x <= B) ->
  - (Z.of_nat (length l) * B) <= Zsum l <= Z.of_nat (length l) * B.
Proof.
  induction l as [|x l IH]; intros H.
  - simpl. lia.
  - assert (Hx : - B <= x <= B) by (apply H; left).
    assert (Hl : - (Z.of_nat (length l) * B) <= Zsum l <= Z.of_nat (length l) * B).
    { apply IH. intros y Hy. apply H. right. exact Hy. }
    cbn [Zsum foldr length]. fold (Zsum l). lia.
Qed.

(** With the boxcar weights the 32-bit accumulator never wraps, whatever
    16-bit samples the half-buffer holds. *)
Lemma boxcar_sum_fits (NC : Z) (st : adc_state) (c : Z) :
  0 <= adc_oversample st <= 255 ->
  (forall i, in_int16 (half_sample st i)) ->
  (forall s, 0 <= s < adc_oversample st -> coeff st s = 1) ->
  in_int32 (weighted_sum NC st c).
Proof.
  intros Hos Hraw Hone. unfold weighted_sum.
  pose proof (Zsum_bound
    ((fun s => half_sample st (c + s * NC) * coeff st s) <$> seqZ 0 (adc_oversample st))
    32768) as Hb.
  rewrite length_fmap, length_seqZ, Z2Nat.id in Hb by lia.
  unfold in_int32, INT32_MIN, INT32_MAX.
  assert (Hall : forall x,
            x ∈ (fun s => half_sample st (c + s * NC) * coeff st s)
                  <$> seqZ 0 (adc_oversample st) ->
            - 32768 <= x <= 32768).
  { intros x Hx. apply list_elem_of_fmap in Hx as (s & -> & Hs).
    apply elem_of_seqZ in Hs. rewrite Hone by lia.
    pose proof (Hraw (c + s * NC)) as Hr.
    unfold in_int16, INT16_MIN, INT16_MAX in Hr. lia. }
  specialize (Hb Hall). nia.
Qed.

(** When both completion flags are pending the handler treats the
    interrupt as a full transfer and leaves the half-transfer flag set. *)
Lemma handler_full_transfer_first (NC : Z) (st : adc_state) :
  geometry_ok NC st ->
  DMA_GetFlagStatus DMA1_IT_TC1 st = true ->
  DMA_GetFlagStatus DMA1_IT_HT1 st = true ->
  exists st',
    AHRS_ADC_DMA_Handler NC st = Some st' /\
    valid_data_buffer st' = Some (NC * adc_oversample st) /\
    DMA_GetFlagStatus DMA1_IT_HT1 st' = true.
Proof.
  intros Hg Htc Hht.
  exists (after_pass NC (swap_to DMA1_IT_TC1 (half_size NC st) st)).
  rewrite handler_full_transfer by exact Htc.
  rewrite swap_pass by (try exact Hg; right; reflexivity).
  split; [reflexivity|]. split; [reflexivity|]. exact Hht.
Qed.

(** ** Further properties of the configurator *)

(** The state [AHRS_ADC_Config] returns, written out. *)
Lemma config_result (NC os : Z) (st : adc_state) :
  0 <= os < Z.of_nat (length (fir_coeffs st)) ->
  AHRS_ADC_Config NC os st =
  Some (1, set_fir_coeffs
             (<[Z.to_nat os := int16 os]>
                (fill (fun _ => 1) 0 (Z.to_nat os) (fir_coeffs st)))
             (set_DMA_BufferSize (uint32 (Z.shiftr (int32 (NC * os * 2)) 1))
                (set_adc_oversample (uint8 os) st))).
Proof.
  intros Hos. unfold AHRS_ADC_Config.
  rewrite config_fir_loop_fill by (cbn; lia). simpl.
  rewrite array_set_in_range by (rewrite length_fill; cbn; lia).
  reflexivity.
Qed.




(** X2.  A factor of 256 or more that the table admits is cut to its low
    eight bits; the slot the filter then reads as divisor lies among the
    weights and holds 1, while the divisor was stored at the factor's own
    index. *)
Theorem config_wide_factor_divisor (NC NP MAX_OVERSAMPLING MAX_SAMPLES : Z)
    (oversample : Z) (st : adc_state) :
  wf_state NP MAX_OVERSAMPLING MAX_SAMPLES st ->
  256 <= oversample < MAX_OVERSAMPLING ->
  exists st',
    AHRS_ADC_Config NC oversample st = Some (1, st') /\
    adc_oversample st' = oversample mod 256 /\
    adc_oversample st' < oversample /\
    array_get (fir_coeffs st') (adc_oversample st') = Some 1 /\
    array_get (fir_coeffs st') oversample = Some (int16 oversample).
Proof.
  intros (Hraw & Hfir & Hdown & H8) Hos.
  pose proof (Z.mod_pos_bound oversample 256 ltac:(lia)) as Hm.
  eexists. split; [apply config_result; lia|].
  cbn [adc_oversample fir_coeffs set_fir_coeffs set_DMA_BufferSize set_adc_oversample].
  unfold uint8, to_unsigned. change (2 ^ 8) with 256.
  split; [reflexivity|]. split; [lia|].
  unfold array_get.
  destruct (Z.leb_spec 0 (oversample mod 256)); [|lia].
  destruct (Z.leb_spec 0 oversample); [|lia].
  split.
  - rewrite list_lookup_insert_ne by lia.
    pose proof (fill_get_inside (fun _ : Z => 1) 0 (Z.to_nat oversample)
                  (fir_coeffs st) (oversample mod 256)) as Hg.
    unfold array_get in Hg. destruct (Z.leb_spec 0 (oversample mod 256)); [|lia].
    apply Hg; lia.
  - apply list_lookup_insert_eq. rewrite length_fill. lia.
Qed.

Lemma config_wide_factor_divisor_witness :
  wf_state 2 300 16 (init_state 2 300 16) /\ 256 <= 259 < 300 /\
  exists st',
    AHRS_ADC_Config 2 259 (init_state 2 300 16) = Some (1, st') /\
    adc_oversample st' = 259 mod 256 /\
    adc_oversample st' < 259 /\
    array_get (fir_coeffs st') (adc_oversample st') = Some 1 /\
    array_get (fir_coeffs st') 259 = Some (int16 259).
Proof.
  assert (Hwf : wf_state 2 300 16 (init_state 2 300 16)).
  { unfold wf_state, init_state, UINT8_MAX. cbn [raw_data_buffer fir_coeffs
      downsampled_buffer adc_oversample]. rewrite !length_replicate. lia. }
  assert (H : 256 <= 259 < 300) by lia.
  split; [exact Hwf|]. split; [exact H|].
  exact (config_wide_factor_divisor 2 2 300 16 259 (init_state 2 300 16) Hwf H).
Defined.

(** ** Further properties of the filter *)

Lemma div_by_zero (x : Float32.float) (s : bool) :
  Float32.div x (S754_zero s) = S754_nan \/
  exists sg, Float32.div x (S754_zero s) = S754_infinity sg.
Proof.
  destruct x as [sx|sx| |sx m e]; cbn; eauto.
Qed.

(** X3.  The divisor is not guarded: when [coeff[oversample_factor]] is 0
    the pass still returns, and every channel receives an infinity or a
    NaN, a NaN when the channel's accumulator is 0. *)
Theorem downsample_data_zero_divisor (NC : Z) (st : adc_state) (base : Z) :
  valid_data_buffer st = Some base ->
  half_in_buffer NC st base ->
  tables_ok NC st ->
  coeff st (adc_oversample st) = 0 ->
  exists st',
    AHRS_ADC_downsample_data NC st = Some st' /\
    forall c, 0 <= c < NC ->
      exists f,
        array_get (downsampled_buffer st') c = Some f /\
        (f = S754_nan \/ exists sg, f = S754_infinity sg) /\
        (accumulated NC st c = 0 -> f = S754_nan).
Proof.
  intros Hb Hh Ht Hz. exists (after_pass NC st).
  split; [exact (downsample_data_pass NC st base Hb Hh Ht)|].
  intros c Hc. exists (decimated NC st c).
  split; [apply after_pass_get; [exact Hc|destruct Ht as (? & ? & ? & ?); lia]|].
  unfold decimated, normalise. rewrite Hz.
  change (Float32.of_int 0) with (S754_zero false).
  split; [apply div_by_zero|].
  intros ->. reflexivity.
Qed.

Lemma downsample_data_zero_divisor_witness :
  valid_data_buffer zero_divisor_example = Some 0 /\
  half_in_buffer 2 zero_divisor_example 0 /\
  tables_ok 2 zero_divisor_example /\
  coeff zero_divisor_example (adc_oversample zero_divisor_example) = 0 /\
  exists st',
    AHRS_ADC_downsample_data 2 zero_divisor_example = Some st' /\
    forall c, 0 <= c < 2 ->
      exists f,
        array_get (downsampled_buffer st') c = Some f /\
        (f = S754_nan \/ exists sg, f = S754_infinity sg) /\
        (accumulated 2 zero_divisor_example c = 0 -> f = S754_nan).
Proof.
  assert (Hb : valid_data_buffer zero_divisor_example = Some 0) by reflexivity.
  assert (Hh : half_in_buffer 2 zero_divisor_example 0) by (vm_compute; split; discriminate).
  assert (Ht : tables_ok 2 zero_divisor_example) by solve_bounds.
  assert (Hz : coeff zero_divisor_example (adc_oversample zero_divisor_example) = 0)
    by reflexivity.
  repeat (split; [assumption|]).
  exact (downsample_data_zero_divisor 2 zero_divisor_example 0 Hb Hh Ht Hz).
Defined.



(** ** Further properties of the handler *)

Lemma fill_ext {A} (g1 g2 : Z -> A) (i : Z) (n : nat) (a : list A) :
  (forall k, i <= k < i + Z.of_nat n -> g1 k = g2 k) ->
  fill g1 i n a = fill g2 i n a.
Proof.
  intros H. apply list_eq. intros k. rewrite !fill_lookup.
  destruct (a !! k) as [x|]; [|reflexivity]. simpl. f_equal.
  destruct (Z.leb_spec i (Z.of_nat k)), (Z.ltb_spec (Z.of_nat k) (i + Z.of_nat n));
    simpl; try reflexivity.
  apply H. lia.
Qed.

Lemma after_pass_get_outside (NC : Z) (st : adc_state) (k : Z) :
  0 <= NC -> NC <= k ->
  array_get (downsampled_buffer (after_pass NC st)) k
  = array_get (downsampled_buffer st) k.
Proof.
  intros Hnc Hk. cbn [after_pass downsampled_buffer set_trace set_downsampled_buffer].
  unfold decimate. apply fill_get_outside. lia.
Qed.

(** X5.  Whatever signal is pending, the handler returns and leaves the
    oversample factor, the coefficient table, the raw samples and the
    registered callback as they were; the downsampled buffer keeps its size
    and its entries from index [num_channels] on. *)
Theorem dma_handler_frame (NC : Z) (st : adc_state) :
  geometry_ok NC st ->
  exists st',
    AHRS_ADC_DMA_Handler NC st = Some st' /\
    adc_oversample st' = adc_oversample st /\
    fir_coeffs st' = fir_coeffs st /\
    raw_data_buffer st' = raw_data_buffer st /\
    callback_function st' = callback_function st /\
    length (downsampled_buffer st') = length (downsampled_buffer st) /\
    forall k, NC <= k ->
      array_get (downsampled_buffer st') k = array_get (downsampled_buffer st) k.
Proof.
  intros Hg. pose proof Hg as [((Hnc & _) & _) _].
  destruct (DMA_GetFlagStatus DMA1_IT_TC1 st) eqn:Htc;
    [|destruct (DMA_GetFlagStatus DMA1_IT_HT1 st) eqn:Hht].
  - exists (after_pass NC (swap_to DMA1_IT_TC1 (half_size NC st) st)).
    split; [rewrite handler_full_transfer by exact Htc;
            apply swap_pass; [exact Hg|right; reflexivity]|].
    repeat (split; [reflexivity|]).
    split; [cbn [after_pass downsampled_buffer set_trace set_downsampled_buffer];
            rewrite length_decimate; reflexivity|].
    intros k Hk. apply (after_pass_get_outside NC (swap_to _ _ st) k); lia.
  - exists (after_pass NC (swap_to DMA1_IT_HT1 0 st)).
    split; [rewrite handler_half_transfer by assumption;
            apply swap_pass; [exact Hg|left; reflexivity]|].
    repeat (split; [reflexivity|]).
    split; [cbn [after_pass downsampled_buffer set_trace set_downsampled_buffer];
            rewrite length_decimate; reflexivity|].
    intros k Hk. apply (after_pass_get_outside NC (swap_to _ _ st) k); lia.
  - exists (DMA_ClearFlag DMA1_FLAG_GL1 st).
    split; [apply handler_no_transfer; assumption|].
    repeat split; reflexivity.
Qed.

Lemma dma_handler_frame_witness :
  geometry_ok 1 both_pending_example /\
  exists st',
    AHRS_ADC_DMA_Handler 1 both_pending_example = Some st' /\
    adc_oversample st' = adc_oversample both_pending_example /\
    fir_coeffs st' = fir_coeffs both_pending_example /\
    raw_data_buffer st' = raw_data_buffer both_pending_example /\
    callback_function st' = callback_function both_pending_example /\
    length (downsampled_buffer st') = length (downsampled_buffer both_pending_example) /\
    forall k, 1 <= k ->
      array_get (downsampled_buffer st') k
      = array_get (downsampled_buffer both_pending_example) k.
Proof.
  assert (Hg : geometry_ok 1 both_pending_example) by solve_bounds.
  split; [exact Hg|].
  exact (dma_handler_frame 1 both_pending_example Hg).
Defined.

(** The filter's values depend on the raw buffer through the published
    half only. *)
Lemma decimate_half_only (NC : Z) (st : adc_state) (raw2 : list Z) (base : Z) :
  0 <= base ->
  valid_data_buffer st = Some base ->
  (forall i, base <= i < base + half_size NC st ->
     array_get raw2 i = array_get (raw_data_buffer st) i) ->
  decimate NC (set_raw_data_buffer raw2 st) = decimate NC st.
Proof.
  intros Hb Hv Hagree. unfold decimate.
  cbn [downsampled_buffer set_raw_data_buffer].
  apply fill_ext. intros c Hc.
  unfold decimated, accumulated, weighted_sum.
  cbn [adc_oversample set_raw_data_buffer].
  change (coeff (set_raw_data_buffer raw2 st)) with (coeff st).
  f_equal. f_equal. f_equal.
  apply list_fmap_ext. intros j s Hs. apply lookup_seqZ in Hs as [-> Hj].
  f_equal. unfold half_sample, valid_data_get.
  cbn [valid_data_buffer raw_data_buffer set_raw_data_buffer]. rewrite Hv. simpl.
  rewrite Hagree; [reflexivity|].
  pose proof (filter_index_in_half NC (adc_oversample st) c (0 + Z.of_nat j)) as Hi.
  unfold half_size. lia.
Qed.

(** X6.  The two halves are isolated: the values and the call a
    half-transfer interrupt produces do not depend on what the second half
    of the raw buffer holds, and those of a full-transfer interrupt do not
    depend on the first half. *)
Theorem dma_handler_reads_published_half_only (NC : Z) (st : adc_state)
    (raw2 : list Z) :
  geometry_ok NC st ->
  length raw2 = length (raw_data_buffer st) ->
  let base := if DMA_GetFlagStatus DMA1_IT_TC1 st then half_size NC st else 0 in
  DMA_GetFlagStatus DMA1_IT_TC1 st = true \/ DMA_GetFlagStatus DMA1_IT_HT1 st = true ->
  (forall i, base <= i < base + half_size NC st ->
     array_get raw2 i = array_get (raw_data_buffer st) i) ->
  exists st1 st2,
    AHRS_ADC_DMA_Handler NC st = Some st1 /\
    AHRS_ADC_DMA_Handler NC (set_raw_data_buffer raw2 st) = Some st2 /\
    valid_data_buffer st1 = Some base /\
    valid_data_buffer st2 = Some base /\
    downsampled_buffer st2 = downsampled_buffer st1 /\
    trace st2 = trace st1.
Proof.
  intros Hg Hlen base Hflag Hagree.
  assert (Hg2 : geometry_ok NC (set_raw_data_buffer raw2 st)).
  { destruct Hg as [Ht Hr]. split; [exact Ht|].
    cbn [raw_data_buffer set_raw_data_buffer]. rewrite Hlen. exact Hr. }
  pose proof (half_size_nonneg NC st (proj1 Hg)) as Hpos.
  assert (Hsame : forall flag,
            decimate NC (swap_to flag base (set_raw_data_buffer raw2 st))
            = decimate NC (swap_to flag base st)).
  { intros flag.
    apply (decimate_half_only NC (swap_to flag base st) raw2 base).
    - unfold base. destruct (DMA_GetFlagStatus DMA1_IT_TC1 st); lia.
    - reflexivity.
    - exact Hagree. }
  unfold base in *. clear base.
  destruct (DMA_GetFlagStatus DMA1_IT_TC1 st) eqn:Htc.
  - exists (after_pass NC (swap_to DMA1_IT_TC1 (half_size NC st) st)),
      (after_pass NC (swap_to DMA1_IT_TC1 (half_size NC st) (set_raw_data_buffer raw2 st))).
    split; [rewrite handler_full_transfer by exact Htc;
            apply swap_pass; [exact Hg|right; reflexivity]|].
    split; [rewrite handler_full_transfer by exact Htc;
            apply (swap_pass NC (set_raw_data_buffer raw2 st));
            [exact Hg2|right; reflexivity]|].
    split; [reflexivity|]. split; [reflexivity|].
    cbn [after_pass downsampled_buffer trace set_trace set_downsampled_buffer].
    unfold dispatch. rewrite Hsame. split; reflexivity.
  - assert (Hht : DMA_GetFlagStatus DMA1_IT_HT1 st = true)
      by (destruct Hflag; congruence).
    exists (after_pass NC (swap_to DMA1_IT_HT1 0 st)),
      (after_pass NC (swap_to DMA1_IT_HT1 0 (set_raw_data_buffer raw2 st))).
    split; [rewrite handler_half_transfer by assumption;
            apply swap_pass; [exact Hg|left; reflexivity]|].
    split; [rewrite handler_half_transfer by assumption;
            apply (swap_pass NC (set_raw_data_buffer raw2 st));
            [exact Hg2|left; reflexivity]|].
    split; [reflexivity|]. split; [reflexivity|].
    cbn [after_pass downsampled_buffer trace set_trace set_downsampled_buffer].
    unfold dispatch. rewrite Hsame. split; reflexivity.
Qed.

Lemma dma_handler_reads_published_half_only_witness :
  let st := raise_signal HalfTransfer listening_example in
  geometry_ok 2 st /\
  length other_second_half_example = length (raw_data_buffer st) /\
  (DMA_GetFlagStatus DMA1_IT_TC1 st = true \/ DMA_GetFlagStatus DMA1_IT_HT1 st = true) /\
  (forall i, 0 <= i < 0 + half_size 2 st ->
     array_get other_second_half_example i = array_get (raw_data_buffer st) i) /\
  exists st1 st2,
    AHRS_ADC_DMA_Handler 2 st = Some st1 /\
    AHRS_ADC_DMA_Handler 2 (set_raw_data_buffer other_second_half_example st) = Some st2 /\
    valid_data_buffer st1 = Some 0 /\
    valid_data_buffer st2 = Some 0 /\
    downsampled_buffer st2 = downsampled_buffer st1 /\
    trace st2 = trace st1.
Proof.
  intros st.
  assert (Hg : geometry_ok 2 st) by (apply boxcar_example_geometry; reflexivity).
  assert (Hlen : length other_second_half_example = length (raw_data_buffer st))
    by reflexivity.
  assert (Hflag : DMA_GetFlagStatus DMA1_IT_TC1 st = true \/
                  DMA_GetFlagStatus DMA1_IT_HT1 st = true) by (right; reflexivity).
  assert (Hagree : forall i, 0 <= i < 0 + half_size 2 st ->
            array_get other_second_half_example i = array_get (raw_data_buffer st) i).
  { intros i Hi. change (half_size 2 st) with 6 in Hi.
    assert (i = 0 \/ i = 1 \/ i = 2 \/ i = 3 \/ i = 4 \/ i = 5)
      as [-> | [-> | [-> | [-> | [-> | ->]]]]] by lia; reflexivity. }
  repeat (split; [assumption|]).
  exact (dma_handler_reads_published_half_only 2 st other_second_half_example
           Hg Hlen Hflag Hagree).
Defined.

(** X10.  When both completion signals are pending the handler serves the
    full transfer and leaves the half transfer pending; invoked again it
    serves the half transfer.  After the two invocations no completion is
    pending, the first half is the one published, and a registered callback
    has been called twice, first with the values of the second half. *)
Theorem dma_handler_drains_pending_pair (NC : Z) (fn : ADCCallback) (st : adc_state) :
  geometry_ok NC st ->
  callback_function st = Some fn ->
  DMA_GetFlagStatus DMA1_IT_TC1 st = true ->
  DMA_GetFlagStatus DMA1_IT_HT1 st = true ->
  exists st1 st2,
    AHRS_ADC_DMA_Handler NC st = Some st1 /\
    AHRS_ADC_DMA_Handler NC st1 = Some st2 /\
    valid_data_buffer st1 = Some (NC * adc_oversample st) /\
    DMA_GetFlagStatus DMA1_IT_TC1 st1 = false /\
    DMA_GetFlagStatus DMA1_IT_HT1 st1 = true /\
    valid_data_buffer st2 = Some 0 /\
    idle st2 /\
    trace st2 =
      trace st ++ [CallbackCall fn (downsampled_buffer st1);
                   CallbackCall fn (downsampled_buffer st2)].
Proof.
  intros Hg Hcb Htc Hht.
  set (st1 := after_pass NC (swap_to DMA1_IT_TC1 (half_size NC st) st)).
  assert (Hg1 : geometry_ok NC st1).
  { apply (kept_geometry NC st st1); [|exact Hg].
    unfold configuration_kept, st1.
    cbn [after_pass swap_to DMA_ClearFlag set_trace set_downsampled_buffer
         set_dma_status_reg set_valid_data_buffer adc_oversample fir_coeffs
         callback_function downsampled_buffer raw_data_buffer].
    rewrite length_decimate. repeat split; reflexivity. }
  assert (Htc1 : DMA_GetFlagStatus DMA1_IT_TC1 st1 = false) by reflexivity.
  assert (Hht1 : DMA_GetFlagStatus DMA1_IT_HT1 st1 = true) by exact Hht.
  exists st1, (after_pass NC (swap_to DMA1_IT_HT1 0 st1)).
  split; [rewrite handler_full_transfer by exact Htc;
          apply swap_pass; [exact Hg|right; reflexivity]|].
  split; [rewrite handler_half_transfer by assumption;
          apply swap_pass; [exact Hg1|left; reflexivity]|].
  split; [reflexivity|]. split; [exact Htc1|]. split; [exact Hht1|].
  split; [reflexivity|]. split; [split; reflexivity|].
  cbn [after_pass trace set_trace downsampled_buffer set_downsampled_buffer].
  unfold dispatch at 1.
  assert (Hcb1 : callback_function (swap_to DMA1_IT_HT1 0 st1) = Some fn) by exact Hcb.
  rewrite Hcb1.
  change (trace (swap_to DMA1_IT_HT1 0 st1)) with (trace st1).
  unfold st1 at 1.
  cbn [after_pass trace set_trace downsampled_buffer set_downsampled_buffer].
  unfold dispatch at 1.
  assert (Hcb0 : callback_function (swap_to DMA1_IT_TC1 (half_size NC st) st) = Some fn)
    by exact Hcb.
  rewrite Hcb0.
  change (trace (swap_to DMA1_IT_TC1 (half_size NC st) st)) with (trace st).
  rewrite <- app_assoc. reflexivity.
Qed.

Lemma dma_handler_drains_pending_pair_witness :
  geometry_ok 2 both_pending_example /\
  callback_function both_pending_example = Some 1%positive /\
  DMA_GetFlagStatus DMA1_IT_TC1 both_pending_example = true /\
  DMA_GetFlagStatus DMA1_IT_HT1 both_pending_example = true /\
  exists st1 st2,
    AHRS_ADC_DMA_Handler 2 both_pending_example = Some st1 /\
    AHRS_ADC_DMA_Handler 2 st1 = Some st2 /\
    valid_data_buffer st1 = Some (2 * adc_oversample both_pending_example) /\
    DMA_GetFlagStatus DMA1_IT_TC1 st1 = false /\
    DMA_GetFlagStatus DMA1_IT_HT1 st1 = true /\
    valid_data_buffer st2 = Some 0 /\
    idle st2 /\
    trace st2 =
      trace both_pending_example ++
      [CallbackCall 1%positive (downsampled_buffer st1);
       CallbackCall 1%positive (downsampled_buffer st2)].
Proof.
  assert (Hg : geometry_ok 2 both_pending_example)
    by (apply boxcar_example_geometry; reflexivity).
  split; [exact Hg|]. split; [reflexivity|]. split; [reflexivity|].
  split; [reflexivity|].
  exact (dma_handler_drains_pending_pair 2 1%positive both_pending_example
           Hg eq_refl eq_refl eq_refl).
Defined.

(** ** Further properties of coefficient replacement *)

Lemma int16_round_trip_all : forallb int16_round_trip int16_values = true.
Proof. vm_compute. reflexivity. Qed.

Lemma In_Zrange (n : nat) (a z : Z) :
  a <= z < a + Z.of_nat n -> In z (Zrange n a).
Proof.
  revert a. induction n as [|n IH]; intros a Hz; [lia|].
  cbn [Zrange]. destruct (Z.eq_dec a z) as [->|Hne]; [left; reflexivity|].
  right. apply IH. lia.
Qed.

(** A 16-bit integer converted to [float] and back is itself. *)
Lemma to_int16_of_int (z : Z) :
  in_int16 z -> Float32.to_int16 (Float32.of_int z) = Some z.
Proof.
  intros Hz. pose proof int16_round_trip_all as Hall.
  rewrite forallb_forall in Hall.
  assert (Hin : In z int16_values).
  { apply In_Zrange. unfold in_int16, INT16_MIN, INT16_MAX in *. lia. }
  specialize (Hall z Hin). unfold int16_round_trip in Hall.
  destruct (Float32.to_int16 (Float32.of_int z)) as [z'|]; [|discriminate].
  apply Z.eqb_eq in Hall. congruence.
Qed.

Lemma set_fir_result (nf : list Float32.float) (st : adc_state) :
  0 <= adc_oversample st < Z.of_nat (length (fir_coeffs st)) ->
  (forall k, 0 <= k <= adc_oversample st ->
     exists x, array_get nf k = Some x /\ is_Some (Float32.to_int16 x)) ->
  AHRS_ADC_SetFIRCoefficients nf st =
  Some (set_fir_coeffs
          (fill (converted nf) 0 (Z.to_nat (adc_oversample st + 1)) (fir_coeffs st)) st).
Proof.
  intros Hos Hnf. unfold AHRS_ADC_SetFIRCoefficients.
  apply set_fir_loop_fill; [lia|lia|].
  intros k Hk. apply Hnf. lia.
Qed.

Lemma convertible_prefix (nf : list Float32.float) (os : Z) :
  0 <= os ->
  Z.of_nat (length nf) = os + 1 ->
  Forall (fun x => is_Some (Float32.to_int16 x)) nf ->
  forall k, 0 <= k <= os ->
    exists x, array_get nf k = Some x /\ is_Some (Float32.to_int16 x).
Proof.
  intros Hos Hlen Hconv k Hk.
  destruct (array_get_in_range nf k) as [x Hx]; [lia|].
  exists x. split; [exact Hx|].
  rewrite Forall_forall in Hconv. apply Hconv.
  unfold array_get in Hx. destruct (0 <=? k); [|discriminate].
  eapply list_elem_of_lookup_2, Hx.
Qed.

(** X7.  [AHRS_ADC_SetFIRCoefficients] writes the slots 0 to
    [oversample_factor] and nothing else: the table keeps its size and its
    entries above the divisor, and the raw buffer, the valid-half pointer,
    the factor, the downsampled buffer, the callback and the record of
    calls are unchanged. *)
Theorem set_fir_coefficients_frame (new_filter : list Float32.float) (st : adc_state) :
  0 <= adc_oversample st < Z.of_nat (length (fir_coeffs st)) ->
  Z.of_nat (length new_filter) = adc_oversample st + 1 ->
  Forall (fun x => is_Some (Float32.to_int16 x)) new_filter ->
  exists st',
    AHRS_ADC_SetFIRCoefficients new_filter st = Some st' /\
    length (fir_coeffs st') = length (fir_coeffs st) /\
    (forall k, adc_oversample st < k ->
       array_get (fir_coeffs st') k = array_get (fir_coeffs st) k) /\
    raw_data_buffer st' = raw_data_buffer st /\
    valid_data_buffer st' = valid_data_buffer st /\
    adc_oversample st' = adc_oversample st /\
    downsampled_buffer st' = downsampled_buffer st /\
    callback_function st' = callback_function st /\
    trace st' = trace st.
Proof.
  intros Hos Hlen Hconv.
  eexists. split.
  - apply set_fir_result; [exact Hos|].
    apply convertible_prefix; [lia|exact Hlen|exact Hconv].
  - cbn [fir_coeffs set_fir_coeffs]. split; [apply length_fill|].
    split; [|repeat split; reflexivity].
    intros k Hk. apply fill_get_outside. lia.
Qed.

Lemma set_fir_coefficients_frame_witness :
  let st := set_adc_oversample 2 boxcar_example in
  let nf := take 3 fractional_filter_example in
  0 <= adc_oversample st < Z.of_nat (length (fir_coeffs st)) /\
  Z.of_nat (length nf) = adc_oversample st + 1 /\
  Forall (fun x => is_Some (Float32.to_int16 x)) nf /\
  exists st',
    AHRS_ADC_SetFIRCoefficients nf st = Some st' /\
    length (fir_coeffs st') = length (fir_coeffs st) /\
    (forall k, adc_oversample st < k ->
       array_get (fir_coeffs st') k = array_get (fir_coeffs st) k) /\
    raw_data_buffer st' = raw_data_buffer st /\
    valid_data_buffer st' = valid_data_buffer st /\
    adc_oversample st' = adc_oversample st /\
    downsampled_buffer st' = downsampled_buffer st /\
    callback_function st' = callback_function st /\
    trace st' = trace st.
Proof.
  intros st nf.
  assert (H1 : 0 <= adc_oversample st < Z.of_nat (length (fir_coeffs st)))
    by (simpl; lia).
  assert (H2 : Z.of_nat (length nf) = adc_oversample st + 1) by reflexivity.
  assert (H3 : Forall (fun x => is_Some (Float32.to_int16 x)) nf).
  { apply Forall_take. exact fractional_filter_example_convertible. }
  split; [exact H1|]. split; [exact H2|]. split; [exact H3|].
  exact (set_fir_coefficients_frame nf st H1 H2 H3).
Defined.

Lemma set_fir_loop_app (nf extra : list Float32.float) (n : nat) (i : Z)
    (st : adc_state) :
  0 <= i -> i + Z.of_nat n <= Z.of_nat (length nf) ->
  set_fir_loop (nf ++ extra) n i st = set_fir_loop nf n i st.
Proof.
  revert i st. induction n as [|n IH]; intros i st Hi Hn; [reflexivity|].
  cbn [set_fir_loop].
  assert (Hget : array_get (nf ++ extra) i = array_get nf i).
  { unfold array_get. destruct (0 <=? i); [|reflexivity].
    apply lookup_app_l. lia. }
  rewrite Hget.
  destruct (array_get nf i) as [x|]; [|reflexivity]. simpl.
  destruct (Float32.to_int16 x) as [c|]; [|reflexivity]. simpl.
  destruct (array_set (fir_coeffs st) i c) as [fir|]; [|reflexivity]. simpl.
  apply IH; lia.
Qed.

(** X8.  [AHRS_ADC_SetFIRCoefficients] reads [new_filter[0]] to
    [new_filter[oversample_factor]] and no further: values supplied beyond
    these have no effect. *)
Theorem set_fir_coefficients_ignores_excess (new_filter extra : list Float32.float)
    (st : adc_state) :
  adc_oversample st + 1 <= Z.of_nat (length new_filter) ->
  AHRS_ADC_SetFIRCoefficients (new_filter ++ extra) st =
  AHRS_ADC_SetFIRCoefficients new_filter st.
Proof.
  intros Hlen. unfold AHRS_ADC_SetFIRCoefficients.
  apply set_fir_loop_app; lia.
Qed.

Lemma set_fir_coefficients_ignores_excess_witness :
  adc_oversample boxcar_example + 1 <= Z.of_nat (length fractional_filter_example) /\
  AHRS_ADC_SetFIRCoefficients
    (fractional_filter_example ++ [Float32.of_int 7; S754_nan]) boxcar_example =
  AHRS_ADC_SetFIRCoefficients fractional_filter_example boxcar_example.
Proof.
  assert (H : adc_oversample boxcar_example + 1
              <= Z.of_nat (length fractional_filter_example)) by (simpl; lia).
  split; [exact H|].
  exact (set_fir_coefficients_ignores_excess fractional_filter_example
           [Float32.of_int 7; S754_nan] boxcar_example H).
Defined.

(** X9.  Handing [AHRS_ADC_SetFIRCoefficients] the table's own entries 0
    to [oversample_factor], converted to [float], changes nothing: the
    conversion back to 16-bit integers returns each entry. *)
Theorem set_fir_coefficients_round_trip (st : adc_state) :
  0 <= adc_oversample st < Z.of_nat (length (fir_coeffs st)) ->
  (forall k, 0 <= k <= adc_oversample st -> in_int16 (coeff st k)) ->
  AHRS_ADC_SetFIRCoefficients
    (Float32.of_int <$> take (Z.to_nat (adc_oversample st + 1)) (fir_coeffs st)) st
  = Some st.
Proof.
  intros Hos Hrange.
  set (nf := Float32.of_int <$> take (Z.to_nat (adc_oversample st + 1)) (fir_coeffs st)).
  assert (Hget : forall k, 0 <= k <= adc_oversample st ->
            array_get nf k = Some (Float32.of_int (coeff st k))).
  { intros k Hk. unfold nf, array_get, coeff.
    destruct (Z.leb_spec 0 k); [|lia].
    rewrite list_lookup_fmap, lookup_take_lt by lia.
    unfold array_get. destruct (Z.leb_spec 0 k); [|lia].
    destruct (lookup_lt_is_Some_2 (fir_coeffs st) (Z.to_nat k)) as [x ->]; [lia|].
    reflexivity. }
  rewrite set_fir_result; [|exact Hos|].
  - f_equal.
    assert (Hfir : fill (converted nf) 0 (Z.to_nat (adc_oversample st + 1)) (fir_coeffs st)
                   = fir_coeffs st).
    { apply list_eq. intros j. rewrite fill_lookup.
      destruct (fir_coeffs st !! j) as [x|] eqn:E; [|reflexivity]. simpl. f_equal.
      destruct (Z.leb_spec 0 (Z.of_nat j)),
        (Z.ltb_spec (Z.of_nat j) (0 + Z.of_nat (Z.to_nat (adc_oversample st + 1))));
        simpl; try reflexivity.
      unfold converted. rewrite Hget by lia. simpl.
      rewrite to_int16_of_int by (apply Hrange; lia). simpl.
      unfold coeff, array_get. destruct (Z.leb_spec 0 (Z.of_nat j)); [|lia].
      rewrite Nat2Z.id, E. reflexivity. }
    rewrite Hfir. destruct st; reflexivity.
  - intros k Hk. eexists. split; [apply Hget, Hk|].
    rewrite to_int16_of_int by (apply Hrange, Hk). eauto.
Qed.

Lemma set_fir_coefficients_round_trip_witness :
  0 <= adc_oversample boxcar_example < Z.of_nat (length (fir_coeffs boxcar_example)) /\
  (forall k, 0 <= k <= adc_oversample boxcar_example ->
     in_int16 (coeff boxcar_example k)) /\
  AHRS_ADC_SetFIRCoefficients
    (Float32.of_int <$> take (Z.to_nat (adc_oversample boxcar_example + 1))
                          (fir_coeffs boxcar_example)) boxcar_example
  = Some boxcar_example.
Proof.
  assert (H1 : 0 <= adc_oversample boxcar_example
               < Z.of_nat (length (fir_coeffs boxcar_example))) by (simpl; lia).
  assert (H2 : forall k, 0 <= k <= adc_oversample boxcar_example ->
            in_int16 (coeff boxcar_example k)).
  { intros k Hk. change (adc_oversample boxcar_example) with 3 in Hk.
    assert (k = 0 \/ k = 1 \/ k = 2 \/ k = 3) as [-> | [-> | [-> | ->]]] by lia;
      vm_compute; split; discriminate. }
  split; [exact H1|]. split; [exact H2|].
  exact (set_fir_coefficients_round_trip boxcar_example H1 H2).
Defined.

(** ** Registration of the callback *)

(** X13.  Registration replaces: after a second [AHRS_ADC_SetCallback] a
    pass calls the function registered last, once, and the one registered
    before not at all; after registering NULL it calls nothing. *)
Theorem set_callback_replaces (NC : Z) (f1 f2 : ADCCallback) (st : adc_state)
    (base : Z) :
  valid_data_buffer st = Some base ->
  half_in_buffer NC st base ->
  tables_ok NC st ->
  (exists st',
     AHRS_ADC_downsample_data NC
       (AHRS_ADC_SetCallback (Some f2) (AHRS_ADC_SetCallback (Some f1) st)) = Some st' /\
     trace st' = trace st ++ [CallbackCall f2 (downsampled_buffer st')]) /\
  (exists st',
     AHRS_ADC_downsample_data NC
       (AHRS_ADC_SetCallback None (AHRS_ADC_SetCallback (Some f1) st)) = Some st' /\
     trace st' = trace st).
Proof.
  intros Hb Hh Ht. split.
  - exists (after_pass NC (AHRS_ADC_SetCallback (Some f2)
                             (AHRS_ADC_SetCallback (Some f1) st))).
    split; [apply (downsample_data_pass NC _ base); assumption|reflexivity].
  - exists (after_pass NC (AHRS_ADC_SetCallback None
                             (AHRS_ADC_SetCallback (Some f1) st))).
    split; [apply (downsample_data_pass NC _ base); assumption|].
    cbn [after_pass trace set_trace]. unfold dispatch. cbn. apply app_nil_r.
Qed.

Lemma set_callback_replaces_witness :
  valid_data_buffer boxcar_example = Some 0 /\
  half_in_buffer 2 boxcar_example 0 /\
  tables_ok 2 boxcar_example /\
  (exists st',
     AHRS_ADC_downsample_data 2
       (AHRS_ADC_SetCallback (Some 2%positive)
          (AHRS_ADC_SetCallback (Some 1%positive) boxcar_example)) = Some st' /\
     trace st' = trace boxcar_example ++ [CallbackCall 2%positive (downsampled_buffer st')]) /\
  (exists st',
     AHRS_ADC_downsample_data 2
       (AHRS_ADC_SetCallback None
          (AHRS_ADC_SetCallback (Some 1%positive) boxcar_example)) = Some st' /\
     trace st' = trace boxcar_example).
Proof.
  assert (Hb : valid_data_buffer boxcar_example = Some 0) by reflexivity.
  assert (Hh : half_in_buffer 2 boxcar_example 0) by (vm_compute; split; discriminate).
  assert (Ht : tables_ok 2 boxcar_example) by solve_bounds.
  repeat (split; [assumption|]).
  exact (set_callback_replaces 2 1%positive 2%positive boxcar_example 0 Hb Hh Ht).
Defined.

(** ** Configuration followed by acquisition *)

Lemma default_get_in_int16 (l : list Z) (j : Z) :
  Forall in_int16 l -> in_int16 (default 0 (array_get l j)).
Proof.
  intros Hl. destruct (array_get l j) as [x|] eqn:E; simpl.
  - rewrite Forall_forall in Hl. apply Hl.
    unfold array_get in E. destruct (0 <=? j); [|discriminate].
    eapply list_elem_of_lookup_2, E.
  - unfold in_int16, INT16_MIN, INT16_MAX. lia.
Qed.

(** The table [AHRS_ADC_Config] leaves, entry by entry. *)
Lemma config_table (os : Z) (fir : list Z) (k : Z) :
  0 <= os < Z.of_nat (length fir) -> os <= INT16_MAX -> 0 <= k <= os ->
  array_get (<[Z.to_nat os := int16 os]> (fill (fun _ => 1) 0 (Z.to_nat os) fir)) k
  = Some (if k =? os then os else 1).
Proof.
  intros Hos H16 Hk. unfold array_get. destruct (Z.leb_spec 0 k); [|lia].
  destruct (Z.eqb_spec k os) as [->|Hne].
  - rewrite list_lookup_insert_eq by (rewrite length_fill; lia).
    rewrite int16_small; [reflexivity|].
    unfold in_int16, INT16_MIN, INT16_MAX in *. lia.
  - rewrite list_lookup_insert_ne by lia.
    pose proof (fill_get_inside (fun _ : Z => 1) 0 (Z.to_nat os) fir k) as Hg.
    unfold array_get in Hg. destruct (Z.leb_spec 0 k); [|lia].
    apply Hg; lia.
Qed.

(** X11.  Configure, then let the interrupts run: for a factor and a
    channel count that fit the arrays, [AHRS_ADC_Config] followed by any
    run of completion interrupts carrying 16-bit samples never leaves the
    arrays, and after each interrupt every channel holds the plain sum of
    its [oversample_factor] samples in the published half, divided by
    [oversample_factor]; the 32-bit accumulator never wraps. *)
Theorem config_then_run_averages (NC NP MAX_OVERSAMPLING MAX_SAMPLES : Z)
    (oversample : Z) (es : list dma_event) (st : adc_state) :
  wf_state NP MAX_OVERSAMPLING MAX_SAMPLES st ->
  idle st ->
  0 <= NC <= NP -> NC <= UINT16_MAX ->
  0 <= oversample < MAX_OVERSAMPLING -> oversample <= UINT8_MAX ->
  NC * oversample * 2 <= MAX_SAMPLES ->
  well_sized st es ->
  Forall completion es ->
  Forall (fun e => Forall in_int16 (samples e)) es ->
  exists st0 sts,
    AHRS_ADC_Config NC oversample st = Some (1, st0) /\
    run NC es st0 = Some sts /\
    length sts = length es /\
    forall i e s, es !! i = Some e -> sts !! i = Some s ->
      raw_data_buffer s = samples e /\
      valid_data_buffer s =
        Some (match signal e with HalfTransfer => 0 | _ => NC * oversample end) /\
      forall c, 0 <= c < NC ->
        array_get (downsampled_buffer s) c =
        Some (normalise
                (Zsum ((fun k => half_sample s (c + k * NC)) <$> seqZ 0 oversample))
                oversample).
Proof.
  intros (Hraw & Hfir & Hdown & H8) Hidle Hnc H16 Hos Hos8 Hfit Hws Hc Hsamples.
  unfold UINT8_MAX in Hos8.
  eexists. rewrite config_result by lia.
  set (st0 := set_fir_coeffs _ _).
  assert (Hosf : adc_oversample st0 = oversample).
  { unfold st0. cbn. apply uint8_small. lia. }
  assert (Hg : geometry_ok NC st0).
  { unfold geometry_ok, tables_ok, half_size, UINT8_MAX. rewrite Hosf.
    unfold st0. cbn [fir_coeffs downsampled_buffer raw_data_buffer
      set_fir_coeffs set_DMA_BufferSize set_adc_oversample].
    rewrite length_insert, length_fill. lia. }
  assert (Hidle0 : idle st0) by exact Hidle.
  assert (Hws0 : well_sized st0 es) by exact Hws.
  destruct (run_completions NC es st0 Hidle0 Hg Hws0 Hc)
    as (sts & Hrun & Hsts & Hlen & Hper).
  exists sts. split; [reflexivity|]. split; [exact Hrun|]. split; [exact Hlen|].
  intros i e s He Hs.
  destruct (Hper i e s He Hs) as (Hr & Hv & Hd).
  assert (Hce : completion e).
  { rewrite Forall_forall in Hc. apply Hc. eapply list_elem_of_lookup_2, He. }
  assert (Hse : Forall in_int16 (samples e)).
  { rewrite Forall_forall in Hsamples. apply Hsamples.
    eapply list_elem_of_lookup_2, He. }
  rewrite Hsts in Hs.
  destruct (handled_states_lookup NC es st0 i e s Hws0 He Hs) as (prev & Hsp & Hk & Hl).
  pose proof (handled_kept NC e prev Hl) as Hk2. rewrite <- Hsp in Hk2.
  destruct (kept_trans _ _ _ Hk Hk2) as (Hos_s & Hfir_s & _).
  rewrite Hosf in Hos_s.
  split; [exact Hr|]. split.
  { rewrite Hv. f_equal. destruct Hce as [E | E]; rewrite E; cbn [published_offset].
    - reflexivity.
    - unfold half_size. rewrite Hosf. reflexivity. }
  intros c Hcr. rewrite (Hd c Hcr). f_equal.
  assert (Hcoeff : forall k, 0 <= k <= oversample ->
            coeff s k = if k =? oversample then oversample else 1).
  { intros k Hk'. unfold coeff. rewrite Hfir_s. unfold st0.
    cbn [fir_coeffs set_fir_coeffs set_DMA_BufferSize set_adc_oversample].
    rewrite config_table; [reflexivity|lia|unfold INT16_MAX; lia|lia]. }
  assert (Hone : forall k, 0 <= k < adc_oversample s -> coeff s k = 1).
  { intros k Hk'. rewrite Hos_s in Hk'. rewrite Hcoeff by lia.
    destruct (Z.eqb_spec k oversample); [lia|reflexivity]. }
  assert (Hhs : forall j, in_int16 (half_sample s j)).
  { intros j. unfold half_sample, valid_data_get. rewrite Hr.
    destruct (valid_data_buffer s) as [b|]; simpl.
    - apply default_get_in_int16, Hse.
    - unfold in_int16, INT16_MIN, INT16_MAX. lia. }
  rewrite decimated_filtered
    by (apply boxcar_sum_fits; [unfold UINT8_MAX in *; lia|exact Hhs|exact Hone]).
  unfold filtered, weighted_sum. rewrite Hos_s.
  rewrite (Hcoeff oversample) by lia. rewrite Z.eqb_refl.
  f_equal. f_equal.
  apply list_fmap_ext. intros j k Hj. apply lookup_seqZ in Hj as [-> Hj].
  rewrite Hone by lia. lia.
Qed.

Lemma two_halves_example_in_int16 :
  Forall (fun e => Forall in_int16 (samples e)) two_halves_example.
Proof.
  repeat (constructor;
          [repeat (constructor; [unfold in_int16, INT16_MIN, INT16_MAX; lia|]);
           constructor|]).
  constructor.
Qed.

Lemma config_then_run_averages_witness :
  let st := init_state 2 4 16 in
  wf_state 2 4 16 st /\ idle st /\
  0 <= 2 <= 2 /\ 2 <= UINT16_MAX /\
  0 <= 3 < 4 /\ 3 <= UINT8_MAX /\
  2 * 3 * 2 <= 16 /\
  well_sized st two_halves_example /\
  Forall completion two_halves_example /\
  Forall (fun e => Forall in_int16 (samples e)) two_halves_example /\
  exists st0 sts,
    AHRS_ADC_Config 2 3 st = Some (1, st0) /\
    run 2 two_halves_example st0 = Some sts /\
    length sts = length two_halves_example /\
    forall i e s, two_halves_example !! i = Some e -> sts !! i = Some s ->
      raw_data_buffer s = samples e /\
      valid_data_buffer s =
        Some (match signal e with HalfTransfer => 0 | _ => 2 * 3 end) /\
      forall c, 0 <= c < 2 ->
        array_get (downsampled_buffer s) c =
        Some (normalise
                (Zsum ((fun k => half_sample s (c + k * 2)) <$> seqZ 0 3))
                3).
Proof.
  intros st.
  assert (Hwf : wf_state 2 4 16 st) by exact init_state_wf.
  assert (Hidle : idle st) by (split; reflexivity).
  assert (H1 : 0 <= 2 <= 2) by lia.
  assert (H2 : 2 <= UINT16_MAX) by (unfold UINT16_MAX; lia).
  assert (H3 : 0 <= 3 < 4) by lia.
  assert (H4 : 3 <= UINT8_MAX) by (unfold UINT8_MAX; lia).
  assert (H5 : 2 * 3 * 2 <= 16) by lia.
  assert (Hws : well_sized st two_halves_example) by (repeat constructor).
  pose proof two_halves_example_alternating as [Hc _].
  pose proof two_halves_example_in_int16 as Hs.
  repeat (split; [assumption|]).
  exact (config_then_run_averages 2 2 4 16 3 two_halves_example st
           Hwf Hidle H1 H2 H3 H4 H5 Hws Hc Hs).
Defined.

(** X12.  The transfer count [AHRS_ADC_Config] hands the DMA controller,
    counted in 32-bit words of two samples, covers exactly the two halves
    the handler publishes: [2 * DMA_BufferSize] samples from index 0,
    the first half followed by the second. *)
Theorem config_dma_covers_both_halves (NC oversample : Z) (st : adc_state) :
  0 <= NC ->
  0 <= oversample < Z.of_nat (length (fir_coeffs st)) ->
  oversample <= UINT8_MAX ->
  NC * oversample * 2 <= INT32_MAX ->
  exists st',
    AHRS_ADC_Config NC oversample st = Some (1, st') /\
    DMA_BufferSize st' = half_size NC st' /\
    seqZ 0 (2 * DMA_BufferSize st') =
      half_region NC st' 0 ++ half_region NC st' (half_size NC st').
Proof.
  intros Hnc Hos H8 H32. unfold UINT8_MAX in H8.
  destruct (config_in_range NC oversample st Hos)
    as (st' & Hcfg & _ & Hfield & _ & _ & Hd).
  exists st'. split; [exact Hcfg|].
  pose proof (config_dma_window NC oversample st st' ltac:(nia) Hcfg) as Hw.
  assert (Hhalf : half_size NC st' = NC * oversample).
  { unfold half_size. rewrite Hfield, uint8_small by lia. reflexivity. }
  assert (Hsize : DMA_BufferSize st' = half_size NC st') by lia.
  split; [exact Hsize|].
  unfold half_region. rewrite Hsize.
  replace (2 * half_size NC st') with (half_size NC st' + half_size NC st') by lia.
  rewrite seqZ_app by nia. reflexivity.
Qed.

Lemma config_dma_covers_both_halves_witness :
  0 <= 2 /\
  0 <= 3 < Z.of_nat (length (fir_coeffs (init_state 2 4 16))) /\
  3 <= UINT8_MAX /\
  2 * 3 * 2 <= INT32_MAX /\
  exists st',
    AHRS_ADC_Config 2 3 (init_state 2 4 16) = Some (1, st') /\
    DMA_BufferSize st' = half_size 2 st' /\
    seqZ 0 (2 * DMA_BufferSize st') =
      half_region 2 st' 0 ++ half_region 2 st' (half_size 2 st').
Proof.
  assert (H1 : 0 <= 2) by lia.
  assert (H2 : 0 <= 3 < Z.of_nat (length (fir_coeffs (init_state 2 4 16))))
    by (simpl; lia).
  assert (H3 : 3 <= UINT8_MAX) by (unfold UINT8_MAX; lia).
  assert (H4 : 2 * 3 * 2 <= INT32_MAX) by (unfold INT32_MAX; lia).
  repeat (split; [assumption|]).
  exact (config_dma_covers_both_halves 2 3 (init_state 2 4 16) H1 H2 H3 H4).
Defined.

(** ** Runs with transfer errors *)

Lemma handled_trace_length (NC : Z) (e : dma_event) (prev : adc_state)
    (fn : ADCCallback) :
  callback_function prev = Some fn ->
  length (trace (handled NC e prev)) =
  (length (trace prev) + if is_completion e then 1 else 0)%nat.
Proof.
  intros Hcb. unfold is_completion.
  destruct (signal e) eqn:Hs.
  - rewrite (handled_trace NC e prev fn) by (try left; assumption).
    rewrite length_app. reflexivity.
  - rewrite (handled_trace NC e prev fn) by (try right; assumption).
    rewrite length_app. reflexivity.
  - unfold handled. rewrite Hs. cbn. lia.
Qed.

(** X14.  Transfer errors between completions neither add nor drop a
    call: in any run of interrupts with a callback registered the number
    of calls made equals the number of half- and full-transfer completions
    in the run. *)
Theorem callback_count_with_errors (NC : Z) (fn : ADCCallback)
    (es : list dma_event) (st : adc_state) :
  callback_function st = Some fn ->
  idle st -> geometry_ok NC st -> well_sized st es ->
  exists sts,
    run NC es st = Some sts /\
    length sts = length es /\
    length (trace (default st (last sts))) =
      (length (trace st) + length (filter is_completion es))%nat.
Proof.
  intros Hcb Hidle Hg Hws. exists (handled_states NC es st).
  split; [apply run_handled; assumption|].
  split; [apply length_handled_states|].
  clear Hidle Hg. revert st Hcb Hws.
  induction es as [|e es IH]; intros st Hcb Hws.
  - simpl. lia.
  - apply Forall_cons in Hws as [Hlen Hws].
    pose proof (handled_kept NC e st Hlen) as Hk.
    assert (Hcb' : callback_function (handled NC e st) = Some fn).
    { destruct Hk as (_ & _ & -> & _). exact Hcb. }
    specialize (IH (handled NC e st) Hcb' (kept_well_sized _ _ _ Hk Hws)).
    rewrite (handled_trace_length NC e st fn Hcb) in IH.
    cbn [handled_states].
    assert (Hlast : trace (default st (last (handled NC e st
                             :: handled_states NC es (handled NC e st))))
                    = trace (default (handled NC e st)
                               (last (handled_states NC es (handled NC e st))))).
    { destruct es as [|e' es']; [reflexivity|].
      cbn [handled_states]. rewrite last_cons_cons.
      rewrite (default_last_cons st (handled NC e st)). reflexivity. }
    rewrite Hlast, IH. rewrite filter_cons.
    destruct (is_completion e); simpl; lia.
Qed.

Lemma callback_count_with_errors_witness :
  callback_function listening_example = Some 1%positive /\
  idle listening_example /\ geometry_ok 2 listening_example /\
  well_sized listening_example noisy_run_example /\
  exists sts,
    run 2 noisy_run_example listening_example = Some sts /\
    length sts = length noisy_run_example /\
    length (trace (default listening_example (last sts))) =
      (length (trace listening_example)
       + length (filter is_completion noisy_run_example))%nat.
Proof.
  assert (Hg : geometry_ok 2 listening_example)
    by (apply boxcar_example_geometry; reflexivity).
  assert (Hws : well_sized listening_example noisy_run_example)
    by (repeat constructor).
  split; [reflexivity|]. split; [exact listening_example_idle|].
  split; [exact Hg|]. split; [exact Hws|].
  exact (callback_count_with_errors 2 1%positive noisy_run_example listening_example
           eq_refl listening_example_idle Hg Hws).
Defined.
